(** * stocks_data_management_v1: the fetch / ingest / snapshot cycle

    A shallow embedding of [data_fetch.py] and [data_fetch_v1.py].

    Both scripts run one cycle: [init_db] creates one SQLite table per
    symbol of [STOCKS], [fetch_stock_data] downloads one-minute bars,
    [insert_data] writes them with [INSERT OR IGNORE], and
    [update_readme] renders the two newest rows of every table.

    What is outside the scripts is modelled as follows.
    - The provider ([yf.download]) and the clock ([datetime.now(IST)])
      are read from a [world]; the provider either raises or returns a
      frame.
    - A table is the list of its rows in insertion order; the
      [datetime TEXT PRIMARY KEY] constraint is what [INSERT OR IGNORE]
      tests, so key uniqueness is a property to prove, not a property
      of the representation.  Table names are taken as spelled in the
      f-string (a symbol that contains an apostrophe is outside the
      model, and so are two names that differ only in the case of
      their letters, which the engine takes for one table).
    - A statement of the engine can raise; the [world] says for which
      table a write does.
    - Every timestamp carries the IST zone (the scripts convert each
      one with [tz_convert(IST)]), so a timestamp is its wall-clock
      fields.
    - The driver binds a parameter by its Python type.  A [str] is
      stored as TEXT, a [numpy.float64] as REAL (NULL when it is a
      NaN), a [numpy.int64] as the BLOB of its eight bytes, and a
      pandas [Timestamp] is refused with a [ProgrammingError].
      [data_fetch_v1.py] turns the datetime column into text before it
      inserts ([astype(str)]); [data_fetch.py] does not.
    - The log file and the README are kept as lists of structured
      records, newest last. *)

From Stdlib Require Import ZArith List String Ascii Floats Lia Bool.
From Stdlib.Strings Require Import Byte.
From Stdlib Require Import Sorted Permutation OrdersEx.
From stdpp Require Import gmap strings list.

Local Open Scope string_scope.
Local Open Scope list_scope.
Local Open Scope Z_scope.

(* ================================================================== *)
(** * Python values used by the scripts *)
(* ================================================================== *)

(** The exceptions that can travel through the scripts.  All of them
    derive from [Exception], so [except Exception] catches each. *)
Inductive exn : Type :=
| NameError (name : string)            (* name '...' is not defined *)
| KeyError (key : string)              (* missing frame column *)
| OverflowError                        (* date value out of range *)
| OperationalError (msg : string)      (* sqlite3 *)
| ProgrammingError (msg : string)      (* sqlite3: a parameter cannot be bound *)
| DatabaseError (msg : string)         (* pandas.read_sql_query *)
| ProviderError (msg : string).        (* anything yf.download raises *)

(** An aware [datetime] / pandas [Timestamp] in the IST zone. *)
Record pydatetime : Type := mk_datetime {
  year : Z; month : Z; day : Z;
  hour : Z; minute : Z; second : Z; microsecond : Z
}.

Definition is_leap (y : Z) : bool :=
  (y mod 4 =? 0) && (negb (y mod 100 =? 0) || (y mod 400 =? 0)).

Definition days_in_month (y m : Z) : Z :=
  if m =? 2 then (if is_leap y then 29 else 28)
  else if (m =? 4) || (m =? 6) || (m =? 9) || (m =? 11) then 30
  else 31.

(** [now.replace(minute=m, second=0, microsecond=0)] *)
Definition replace_minute (d : pydatetime) (m : Z) : pydatetime :=
  {| year := year d; month := month d; day := day d; hour := hour d;
     minute := m; second := 0; microsecond := 0 |}.

(** The calendar day before the day of [d]; year 0 does not exist. *)
Definition previous_day (d : pydatetime) : exn + (Z * Z * Z) :=
  if 1 <? day d then inr (year d, month d, day d - 1)
  else if 1 <? month d
       then inr (year d, month d - 1, days_in_month (year d) (month d - 1))
  else if 1 <? year d then inr (year d - 1, 12, 31)
  else inl OverflowError.

(** [d - timedelta(minutes=n)] for [0 <= n <= 1440]. *)
Definition sub_minutes (d : pydatetime) (n : Z) : exn + pydatetime :=
  let total := hour d * 60 + minute d - n in
  if 0 <=? total
  then inr {| year := year d; month := month d; day := day d;
              hour := total / 60; minute := total mod 60;
              second := second d; microsecond := microsecond d |}
  else match previous_day d with
       | inl e => inl e
       | inr (y, m, dd) =>
           inr {| year := y; month := m; day := dd;
                  hour := (total + 1440) / 60; minute := (total + 1440) mod 60;
                  second := second d; microsecond := microsecond d |}
       end.

(** Comparison of two IST timestamps: field by field. *)
Definition fields (d : pydatetime) : list Z :=
  [year d; month d; day d; hour d; minute d; second d; microsecond d].

Fixpoint lex_compare (a b : list Z) : comparison :=
  match a, b with
  | [], [] => Eq
  | [], _ :: _ => Lt
  | _ :: _, [] => Gt
  | x :: a', y :: b' =>
      match x ?= y with
      | Eq => lex_compare a' b'
      | c => c
      end
  end.

Definition dt_le (a b : pydatetime) : bool :=
  match lex_compare (fields a) (fields b) with Gt => false | _ => true end.

Definition dt_lt (a b : pydatetime) : bool :=
  match lex_compare (fields a) (fields b) with Lt => true | _ => false end.

(** ** [str] of a timestamp: [YYYY-MM-DD HH:MM:SS[.ffffff]+05:30] *)

Definition digit (z : Z) : ascii := ascii_of_nat (48 + Z.to_nat (z mod 10)).

Fixpoint zero_padded (width : nat) (z : Z) (acc : string) : string :=
  match width with
  | O => acc
  | S w => zero_padded w (z / 10) (String (digit z) acc)
  end.

Definition str_datetime (d : pydatetime) : string :=
  zero_padded 4 (year d) ("-" +:+ zero_padded 2 (month d) ("-" +:+
  zero_padded 2 (day d) (" " +:+ zero_padded 2 (hour d) (":" +:+
  zero_padded 2 (minute d) (":" +:+ zero_padded 2 (second d)
    ((if microsecond d =? 0 then ""
      else "." +:+ zero_padded 6 (microsecond d) "") +:+ "+05:30")))))).

(* ================================================================== *)
(** * Frames and rows *)
(* ================================================================== *)

(** One line of the frame [yf.download] returns, after [reset_index]. *)
Record bar : Type := mk_bar {
  Datetime : pydatetime;
  Open : float; High : float; Low : float; Close : float;
  Volume : Z
}.

(** What the provider hands back: the bars, and whether the frame has
    the [Datetime] column the scripts index. *)
Record DataFrame : Type := mk_frame {
  has_Datetime : bool;
  records : list bar
}.

(** [df.empty] *)
Definition empty (df : DataFrame) : bool :=
  match records df with [] => true | _ => false end.

(** The cell of the datetime column that reaches [executemany]: the
    pandas [Timestamp] of the frame, or its text after [astype(str)]. *)
Inductive datetime_cell : Type :=
| Timestamp (d : pydatetime)
| Str (s : string).

(** One element of [to_records(index=False)]: the datetime cell, four
    [numpy.float64] and a [numpy.int64]. *)
Record np_record : Type := mk_record {
  cell_datetime : datetime_cell;
  cell_open : float; cell_high : float; cell_low : float; cell_close : float;
  cell_volume : Z
}.

(** [df.to_records(index=False)]: the datetime cells are [Timestamp]s. *)
Definition to_records (df : list bar) : list np_record :=
  map (fun b => {| cell_datetime := Timestamp (Datetime b);
                   cell_open := Open b; cell_high := High b; cell_low := Low b;
                   cell_close := Close b; cell_volume := Volume b |}) df.

(** [df["datetime"] = df["datetime"].astype(str)] and then
    [to_records(index=False)]: the datetime cells are text. *)
Definition astype_str_to_records (df : list bar) : list np_record :=
  map (fun b => {| cell_datetime := Str (str_datetime (Datetime b));
                   cell_open := Open b; cell_high := High b; cell_low := Low b;
                   cell_close := Close b; cell_volume := Volume b |}) df.

(** A value as SQLite stores it. *)
Inductive value : Type :=
| Null
| Real (f : float)
| Text (s : string)
| Blob (bytes : list byte).

(** A row of a table:
    [(datetime TEXT PRIMARY KEY, open, high, low, close, volume)]. *)
Record row : Type := mk_row {
  datetime : string;
  open : value; high : value; low : value; close : value;
  volume : value
}.

(** A [numpy.float64] is bound as a REAL; a NaN is stored as NULL. *)
Definition bind_float64 (f : float) : value :=
  if PrimFloat.is_nan f then Null else Real f.

Definition byte_of_Z (z : Z) : byte :=
  match Byte.of_N (Z.to_N (z mod 256)) with
  | Some b => b
  | None => Byte.x00
  end.

(** A [numpy.int64] is bound through its buffer: the eight bytes of the
    number, least significant first. *)
Definition bind_int64 (z : Z) : value :=
  Blob (map (fun i => byte_of_Z ((z mod 2 ^ 64) / 256 ^ Z.of_nat i)) (seq 0 8)).

(** The row stored for a line whose datetime cell is the text [key]. *)
Definition stored (key : string) (r : np_record) : row :=
  {| datetime := key;
     open := bind_float64 (cell_open r); high := bind_float64 (cell_high r);
     low := bind_float64 (cell_low r); close := bind_float64 (cell_close r);
     volume := bind_int64 (cell_volume r) |}.

(** What the driver raises for a parameter it has no adapter for. *)
Definition timestamp_not_supported : exn :=
  ProgrammingError "Error binding parameter 1: type 'Timestamp' is not supported".

(** Binding the six parameters of one [INSERT]. *)
Definition bind_parameters (r : np_record) : exn + row :=
  match cell_datetime r with
  | Timestamp _ => inl timestamp_not_supported
  | Str key => inr (stored key r)
  end.

(** The rows of a whole [executemany], or the first binding error. *)
Fixpoint bind_all (records : list np_record) : exn + list row :=
  match records with
  | [] => inr []
  | r :: records' =>
      match bind_parameters r with
      | inl e => inl e
      | inr x =>
          match bind_all records' with
          | inl e => inl e
          | inr xs => inr (x :: xs)
          end
      end
  end.

(** The row [data_fetch_v1.py] stores for a line of the frame. *)
Definition to_record (b : bar) : row :=
  {| datetime := str_datetime (Datetime b);
     open := bind_float64 (Open b); high := bind_float64 (High b);
     low := bind_float64 (Low b); close := bind_float64 (Close b);
     volume := bind_int64 (Volume b) |}.

(* ================================================================== *)
(** * The SQLite statements the scripts issue *)
(* ================================================================== *)

Module Sqlite.

(** Is there a row with primary key [k]? *)
Definition has_key (k : string) (t : list row) : bool :=
  existsb (fun r => String.eqb (datetime r) k) t.

(** [INSERT OR IGNORE INTO t VALUES r] *)
Definition insert_or_ignore (t : list row) (r : row) : list row :=
  if has_key (datetime r) t then t else t ++ [r].

(** [executemany] of the statement over [rows], in order. *)
Definition executemany (t : list row) (rows : list row) : list row :=
  fold_left insert_or_ignore rows t.

(** BINARY collation on TEXT: byte-wise comparison. *)
Definition text_le (a b : string) : bool :=
  match String_as_OT.compare a b with Gt => false | _ => true end.

(** [ORDER BY datetime DESC]: insertion into a descending list. *)
Fixpoint insert_desc (r : row) (l : list row) : list row :=
  match l with
  | [] => [r]
  | x :: l' =>
      if text_le (datetime x) (datetime r) then r :: l
      else x :: insert_desc r l'
  end.

Definition order_by_datetime_desc (t : list row) : list row :=
  fold_right insert_desc [] t.

(** [SELECT * FROM t ORDER BY datetime DESC LIMIT k] *)
Definition select_recent (k : nat) (t : list row) : list row :=
  firstn k (order_by_datetime_desc t).

End Sqlite.

(* ================================================================== *)
(** * The run-time: provider, clock, database file, log, README *)
(* ================================================================== *)

Inductive level : Type := INFO | WARNING | ERROR.

(** The messages the scripts pass to [logging]. *)
Inductive message : Type :=
| Starting_data_fetch_cycle
| No_data_returned_for (stock : string)
| Error_fetching_data_for (stock : string) (e : exn)
| Inserted_rows_for (n : nat) (stock : string)
| Inserted_rows_duplicates_ignored (stock : string) (n : nat)
| No_data_to_insert_for (stock : string)
| Error_updating_README_for (stock : string) (e : exn)
| Cycle_complete.

(** What [f.write] puts into the README. *)
Inductive chunk : Type :=
| Title
| Last_updated (t : pydatetime)
| Markdown_section (stock : string) (rows : list row)
| Html_section (stock : string) (rows : list (string * value * value)).

(** The stock a chunk is the section of. *)
Definition section_of (c : chunk) : option string :=
  match c with
  | Markdown_section stock _ | Html_section stock _ => Some stock
  | _ => None
  end.

Record state : Type := mk_state {
  db : gmap string (list row);      (* the database file: table name -> rows *)
  log : list (level * message);     (* data_fetch.log *)
  readme : option (list chunk)      (* README file, [None] before it is written *)
}.

Record world : Type := mk_world {
  download : string -> exn + DataFrame;   (* yf.download(tickers=stock, ...) *)
  clock : pydatetime;                     (* datetime.now(IST) *)
  insert_error : string -> option exn     (* the insert into this table raises *)
}.

(** A computation reads the world, changes the state, and returns or
    raises; what it changed before raising stays changed. *)
Definition M (A : Type) : Type := world -> state -> (exn + A) * state.

Definition ret {A : Type} (a : A) : M A := fun _ s => (inr a, s).

Definition raise {A : Type} (e : exn) : M A := fun _ s => (inl e, s).

Definition bind {A B : Type} (m : M A) (f : A -> M B) : M B :=
  fun w s =>
    match m w s with
    | (inl e, s') => (inl e, s')
    | (inr a, s') => f a w s'
    end.

(** [try: body / except Exception as e: handler e] *)
Definition try_except {A : Type} (body : M A) (handler : exn -> M A) : M A :=
  fun w s =>
    match body w s with
    | (inl e, s') => handler e w s'
    | (inr a, s') => (inr a, s')
    end.

Notation "x <- m ;; k" := (bind m (fun x => k))
  (at level 100, m at next level, right associativity).
Notation "m ;; k" := (bind m (fun _ => k))
  (at level 100, right associativity).

(** [for x in l: body x] *)
Fixpoint for_each {A : Type} (l : list A) (body : A -> M unit) : M unit :=
  match l with
  | [] => ret tt
  | x :: l' => body x ;; for_each l' body
  end.

Definition set_db (d : gmap string (list row)) (s : state) : state :=
  {| db := d; log := log s; readme := readme s |}.

(** The log file is appended to. *)
Definition add_log (s : state) (entries : list (level * message)) : state :=
  {| db := db s; log := log s ++ entries; readme := readme s |}.

Definition logging (l : level) (m : message) : M unit :=
  fun _ s => (inr tt, add_log s [(l, m)]).

Definition yf_download (stock : string) : M DataFrame :=
  fun w s => (download w stock, s).

Definition datetime_now : M pydatetime := fun w s => (inr (clock w), s).

(** [df["Datetime"].dt.tz_convert(IST)]: the column has to be there. *)
Definition tz_convert (df : DataFrame) : M (list bar) :=
  if has_Datetime df then ret (records df) else raise (KeyError "Datetime").

(** [open(README_FILE, "w")] truncates; [f.write] appends. *)
Definition open_readme : M unit :=
  fun _ s => (inr tt, {| db := db s; log := log s; readme := Some [] |}).

Definition write (c : chunk) : M unit :=
  fun _ s => (inr tt, {| db := db s; log := log s;
                         readme := Some (default [] (readme s) ++ [c]) |}).

(** [CREATE TABLE IF NOT EXISTS '{stock}' (...)].  The column types are
    not kept: the volume column is INTEGER in [data_fetch.py], which
    stores no row, and REAL in [data_fetch_v1.py], where that affinity
    leaves a BLOB, a REAL and a NULL as they are bound. *)
Definition create_table_if_not_exists (stock : string) : M unit :=
  fun _ s =>
    match db s !! stock with
    | Some _ => (inr tt, s)
    | None => (inr tt, set_db (<[stock := []]> (db s)) s)
    end.

(** [cursor.executemany("INSERT OR IGNORE INTO '{stock}' ...", rows)]
    followed by [conn.commit()]: the statement is prepared against the
    table, then every element of [rows] is bound and inserted.  When
    anything raises, [commit] is not reached and nothing is stored. *)
Definition executemany_insert_or_ignore (stock : string) (rows : list np_record)
  : M unit :=
  fun w s =>
    match insert_error w stock with
    | Some e => (inl e, s)
    | None =>
        match db s !! stock with
        | None => (inl (OperationalError ("no such table: " +:+ stock)), s)
        | Some t =>
            match bind_all rows with
            | inl e => (inl e, s)
            | inr bound =>
                (inr tt, set_db (<[stock := Sqlite.executemany t bound]> (db s)) s)
            end
        end
    end.

(** [pd.read_sql_query("SELECT ... FROM '{stock}' ORDER BY datetime DESC
    LIMIT k", conn)].  The message kept is the engine's; pandas puts
    [Execution failed on sql '<query>': ] before it. *)
Definition read_sql_query (stock : string) (k : nat) : M (list row) :=
  fun _ s =>
    match db s !! stock with
    | None => (inl (DatabaseError ("no such table: " +:+ stock)), s)
    | Some t => (inr (Sqlite.select_recent k t), s)
    end.

(** The configured basket, the same in both scripts. *)
Definition STOCKS : list string :=
  [ "RELIANCE.NS"; "HDFCBANK.NS"; "ICICIBANK.NS"; "INFY.NS"; "TCS.NS";
    "ITC.NS"; "HINDUNILVR.NS"; "SBIN.NS"; "BHARTIARTL.NS"; "KOTAKBANK.NS";
    "LT.NS"; "AXISBANK.NS"; "BAJFINANCE.NS"; "ASIANPAINT.NS"; "MARUTI.NS";
    "SUNPHARMA.NS"; "WIPRO.NS"; "POWERGRID.NS"; "NTPC.NS"; "ONGC.NS" ].

(* ================================================================== *)
(** * data_fetch.py *)
(* ================================================================== *)

Module data_fetch.

Section cycle.

(** The module global [STOCKS]. *)
Variable stocks : list string.

Definition init_db : M unit :=
  for_each stocks create_table_if_not_exists.

(** The frame goes to the driver as it is, [Timestamp]s included; no
    value is returned. *)
Definition insert_data (stock : string) (df : list bar) : M unit :=
  let rows := to_records df in
  executemany_insert_or_ignore stock rows.

Definition fetch_stock_data (stock : string) : M (option (list bar)) :=
  try_except
    (df <- yf_download stock ;;
     if empty df
     then logging WARNING (No_data_returned_for stock) ;; ret None
     else
       df <- tz_convert df ;;
       ret (Some df))
    (fun e =>
       logging ERROR (Error_fetching_data_for stock e) ;; ret None).

(** One turn of the loop of [update_readme]. *)
Definition readme_section (stock : string) : M unit :=
  try_except
    (df <- read_sql_query stock 2 ;;
     match df with
     | [] => ret tt
     | _ :: _ => write (Markdown_section stock df)
     end)
    (fun e => logging ERROR (Error_updating_README_for stock e)).

Definition update_readme : M unit :=
  open_readme ;;
  write Title ;;
  t <- datetime_now ;;
  write (Last_updated t) ;;
  for_each stocks readme_section.

(** One turn of the loop of [main]. *)
Definition process (stock : string) : M unit :=
  df <- fetch_stock_data stock ;;
  match df with
  | Some ((_ :: _) as df) =>
      insert_data stock df ;;
      logging INFO (Inserted_rows_for (length df) stock)
  | _ => logging WARNING (No_data_to_insert_for stock)
  end.

Definition main : M unit :=
  logging INFO Starting_data_fetch_cycle ;;
  init_db ;;
  for_each stocks process ;;
  update_readme ;;
  logging INFO Cycle_complete.

End cycle.

End data_fetch.

(* ================================================================== *)
(** * data_fetch_v1.py *)
(* ================================================================== *)

Module data_fetch_v1.

(** The names the module binds at its top level: its imports, its
    constants and its functions. *)
Definition module_names : list string :=
  [ "os"; "sqlite3"; "logging"; "datetime"; "pytz"; "yf"; "pd"; "tabulate";
    "DB_NAME"; "README_FILE"; "STOCKS"; "IST";
    "init_db"; "insert_data"; "fetch_stock_data"; "update_readme"; "main" ].

Section cycle.

(** The names bound at module level, and the module global [STOCKS]. *)
Variable names : list string.
Variable stocks : list string.

(** Reading a global name: a [NameError] when no statement of the
    module has bound it. *)
Definition global (name : string) : M unit :=
  if existsb (String.eqb name) names then ret tt else raise (NameError name).

(** [end_time - timedelta(minutes=15)] *)
Definition minus_timedelta_minutes (d : pydatetime) (n : Z) : M pydatetime :=
  global "timedelta" ;;
  match sub_minutes d n with
  | inl e => raise e
  | inr d' => ret d'
  end.

Definition init_db : M unit :=
  for_each stocks create_table_if_not_exists.

(** The datetime column is turned into text first; the count that is
    logged is [len(rows)]; no value is returned. *)
Definition insert_data (stock : string) (df : list bar) : M unit :=
  let rows := astype_str_to_records df in
  executemany_insert_or_ignore stock rows ;;
  logging INFO (Inserted_rows_duplicates_ignored stock (length rows)).

(** The renaming of the columns keeps the rows, and
    [print(df_window.head(2))] goes to the standard output, which is
    not part of the state. *)
Definition fetch_stock_data (stock : string) : M (option (list bar)) :=
  try_except
    (df <- yf_download stock ;;
     if empty df
     then logging WARNING (No_data_returned_for stock) ;; ret None
     else
       df <- tz_convert df ;;
       now <- datetime_now ;;
       let minute := (minute now / 15) * 15 in
       let end_time := replace_minute now minute in
       start_time <- minus_timedelta_minutes end_time 15 ;;
       let df_window :=
         filter (fun b => dt_le start_time (Datetime b) && dt_lt (Datetime b) end_time) df in
       ret (Some df_window))
    (fun e =>
       logging ERROR (Error_fetching_data_for stock e) ;; ret None).

(** One turn of the loop of [update_readme]:
    [SELECT datetime, close, volume ... LIMIT 2]. *)
Definition readme_section (stock : string) : M unit :=
  try_except
    (df <- read_sql_query stock 2 ;;
     match df with
     | [] => ret tt
     | _ :: _ =>
         write (Html_section stock (map (fun r => (datetime r, close r, volume r)) df))
     end)
    (fun e => logging ERROR (Error_updating_README_for stock e)).

Definition update_readme : M unit :=
  open_readme ;;
  write Title ;;
  t <- datetime_now ;;
  write (Last_updated t) ;;
  for_each stocks readme_section.

(** One turn of the loop of [main]. *)
Definition process (stock : string) : M unit :=
  df <- fetch_stock_data stock ;;
  match df with
  | Some ((_ :: _) as df) =>
      insert_data stock df ;;
      logging INFO (Inserted_rows_for (length df) stock)
  | _ => logging WARNING (No_data_to_insert_for stock)
  end.

Definition main : M unit :=
  logging INFO Starting_data_fetch_cycle ;;
  init_db ;;
  for_each stocks process ;;
  update_readme ;;
  logging INFO Cycle_complete.

End cycle.

End data_fetch_v1.

(* ================================================================== *)
(** * Running the scripts *)
(* ================================================================== *)

(** Nothing on disk yet. *)
Definition initial : state := {| db := ∅; log := []; readme := None |}.

Definition exec {A : Type} (m : M A) (w : world) (s : state) : state := snd (m w s).

Definition result {A : Type} (m : M A) (w : world) (s : state) : exn + A := fst (m w s).

(** The primary key of every table is unique. *)
Definition unique_timestamps (s : state) : Prop :=
  forall (stock : string) (t : list row),
    db s !! stock = Some t -> NoDup (map datetime t).

(** The operations of [data_fetch.py] on the store, as a caller can
    issue them one after the other. *)
Inductive op : Type :=
| Init_db
| Insert_data (stock : string) (df : list bar)
| Update_readme
| Main.

Definition run_op (stocks : list string) (o : op) : M unit :=
  match o with
  | Init_db => data_fetch.init_db stocks
  | Insert_data stock df => data_fetch.insert_data stock df
  | Update_readme => data_fetch.update_readme stocks
  | Main => data_fetch.main stocks
  end.

(** Each operation runs in the world of its moment; one that raises
    leaves what it had done and the next one still runs. *)
Definition run_ops (stocks : list string) (ops : list (world * op)) (s : state) : state :=
  fold_left (fun s wo => exec (run_op stocks (snd wo)) (fst wo) s) ops s.


(** A quiet world: the provider has nothing, no statement raises. *)
Definition quiet (now : pydatetime) : world :=
  {| download := fun _ => inr (mk_frame true []);
     clock := now;
     insert_error := fun _ => None |}.

(* ================================================================== *)
(** * INSERT OR IGNORE keeps the key unique *)
(* ================================================================== *)

Section sqlite_facts.

Import Sqlite.

Implicit Types (t rows : list row) (r : row) (k : string).

Lemma has_key_spec k t : has_key k t = true <-> k ∈ map datetime t.
Proof.
  unfold has_key. rewrite existsb_exists, list_elem_of_In, in_map_iff.
  split.
  - intros (r & Hin & Heq). apply String.eqb_eq in Heq. eauto.
  - intros (r & Heq & Hin). exists r. split; [done|]. by apply String.eqb_eq.
Qed.

Lemma has_key_false k t : has_key k t = false <-> k ∉ map datetime t.
Proof.
  rewrite <- has_key_spec. destruct (has_key k t); split; congruence.
Qed.

Lemma insert_or_ignore_NoDup t r :
  NoDup (map datetime t) -> NoDup (map datetime (insert_or_ignore t r)).
Proof.
  intros Hnd. unfold insert_or_ignore.
  destruct (has_key (datetime r) t) eqn:Hk; [done|].
  apply has_key_false in Hk.
  rewrite map_app. apply NoDup_app. split; [done|]. split.
  - intros x Hx Hx'. simpl in Hx'. apply list_elem_of_singleton in Hx'. by subst.
  - simpl. apply NoDup_singleton.
Qed.

Lemma executemany_NoDup rows t :
  NoDup (map datetime t) -> NoDup (map datetime (executemany t rows)).
Proof.
  unfold executemany. revert t.
  induction rows as [|r rows IH]; intros t Hnd; simpl; [done|].
  apply IH. by apply insert_or_ignore_NoDup.
Qed.

Lemma insert_or_ignore_extends t r :
  exists added, insert_or_ignore t r = t ++ added /\ (length added <= 1)%nat.
Proof.
  unfold insert_or_ignore. destruct (has_key (datetime r) t).
  - exists []. rewrite app_nil_r. split; [done | simpl; lia].
  - exists [r]. split; [done | simpl; lia].
Qed.

(** The rows already there stay, as they are and where they are. *)
Lemma executemany_extends rows t :
  exists added, executemany t rows = t ++ added /\ (length added <= length rows)%nat.
Proof.
  unfold executemany. revert t.
  induction rows as [|r rows IH]; intros t; simpl.
  - exists []. rewrite app_nil_r. split; [done | simpl; lia].
  - destruct (insert_or_ignore_extends t r) as (a1 & -> & Ha1).
    destruct (IH (t ++ a1)) as (a2 & -> & Ha2).
    exists (a1 ++ a2). rewrite app_assoc. split; [done|].
    rewrite length_app. simpl. lia.
Qed.


Lemma executemany_keeps_key k rows t :
  has_key k t = true -> has_key k (executemany t rows) = true.
Proof.
  rewrite !has_key_spec. destruct (executemany_extends rows t) as (a & -> & _).
  rewrite map_app, elem_of_app. by left.
Qed.

Lemma insert_or_ignore_has_key t r :
  has_key (datetime r) (insert_or_ignore t r) = true.
Proof.
  unfold insert_or_ignore. destruct (has_key (datetime r) t) eqn:Hk; [done|].
  apply has_key_spec. rewrite map_app. set_solver.
Qed.

(** After the call every submitted key is in the table. *)
Lemma executemany_has_keys rows t r :
  r ∈ rows -> has_key (datetime r) (executemany t rows) = true.
Proof.
  unfold executemany. revert t.
  induction rows as [|r' rows IH]; intros t Hin; [by apply elem_of_nil in Hin|].
  apply elem_of_cons in Hin as [->|Hin]; simpl.
  - apply (executemany_keeps_key _ rows). apply insert_or_ignore_has_key.
  - by apply IH.
Qed.

(** Rows whose keys are all taken change nothing. *)
Lemma executemany_all_known rows t :
  (forall r, r ∈ rows -> has_key (datetime r) t = true) ->
  executemany t rows = t.
Proof.
  unfold executemany. revert t.
  induction rows as [|r rows IH]; intros t Hall; simpl; [done|].
  assert (insert_or_ignore t r = t) as ->.
  { unfold insert_or_ignore. rewrite Hall; [done|]. set_solver. }
  apply IH. intros r' Hr'. apply Hall. set_solver.
Qed.

Lemma executemany_idempotent rows t :
  executemany (executemany t rows) rows = executemany t rows.
Proof.
  apply executemany_all_known. intros r Hr. by apply executemany_has_keys.
Qed.

End sqlite_facts.

(* ================================================================== *)
(** * Reasoning about computations *)
(* ================================================================== *)

(** [m] keeps [P], whether it returns or raises. *)
Definition preserves {A : Type} (P : state -> Prop) (m : M A) : Prop :=
  forall w s, P s -> P (snd (m w s)).

Lemma preserves_ret {A : Type} (P : state -> Prop) (a : A) : preserves P (ret a).
Proof. by intros w s. Qed.

Lemma preserves_raise {A : Type} (P : state -> Prop) (e : exn) :
  preserves P (raise (A := A) e).
Proof. by intros w s. Qed.

Lemma preserves_bind {A B : Type} (P : state -> Prop) (m : M A) (f : A -> M B) :
  preserves P m -> (forall a, preserves P (f a)) -> preserves P (bind m f).
Proof.
  intros Hm Hf w s HP. unfold bind. specialize (Hm w s HP).
  destruct (m w s) as [[e|a] s1]; simpl in *; [done|]. by apply Hf.
Qed.

Lemma preserves_try_except {A : Type} (P : state -> Prop) (m : M A) (h : exn -> M A) :
  preserves P m -> (forall e, preserves P (h e)) -> preserves P (try_except m h).
Proof.
  intros Hm Hh w s HP. unfold try_except. specialize (Hm w s HP).
  destruct (m w s) as [[e|a] s1]; simpl in *; [|done]. by apply Hh.
Qed.

Lemma preserves_for_each {A : Type} (P : state -> Prop) (l : list A) (body : A -> M unit) :
  (forall x, preserves P (body x)) -> preserves P (for_each l body).
Proof.
  intros Hbody. induction l as [|x l IH]; simpl.
  - apply preserves_ret.
  - apply preserves_bind; [apply Hbody | intros _; apply IH].
Qed.

Lemma preserves_if {A : Type} (P : state -> Prop) (b : bool) (m1 m2 : M A) :
  preserves P m1 -> preserves P m2 -> preserves P (if b then m1 else m2).
Proof. by destruct b. Qed.

(** A predicate that looks at the tables only. *)
Definition on_db (P : state -> Prop) : Prop :=
  forall s s', db s = db s' -> P s -> P s'.

Section db_only.

Variable P : state -> Prop.
Hypothesis P_db : on_db P.

Lemma preserves_logging l m : preserves P (logging l m).
Proof. intros w s. by apply P_db. Qed.

Lemma preserves_yf_download stock : preserves P (yf_download stock).
Proof. by intros w s. Qed.

Lemma preserves_datetime_now : preserves P datetime_now.
Proof. by intros w s. Qed.

Lemma preserves_tz_convert df : preserves P (tz_convert df).
Proof. unfold tz_convert. apply preserves_if; [apply preserves_ret | apply preserves_raise]. Qed.

Lemma preserves_open_readme : preserves P open_readme.
Proof. intros w s. by apply P_db. Qed.

Lemma preserves_write c : preserves P (write c).
Proof. intros w s. by apply P_db. Qed.

Lemma preserves_read_sql_query stock k : preserves P (read_sql_query stock k).
Proof. intros w s HP. unfold read_sql_query. by destruct (db s !! stock). Qed.

End db_only.

(* ================================================================== *)
(** * What each function does, case by case *)
(* ================================================================== *)

Lemma add_log_add_log s l1 l2 : add_log (add_log s l1) l2 = add_log s (l1 ++ l2).
Proof. unfold add_log. simpl. by rewrite <- app_assoc. Qed.

Lemma add_log_nil s : add_log s [] = s.
Proof. destruct s. unfold add_log. simpl. by rewrite app_nil_r. Qed.

(** ** [fetch_stock_data] *)

(** The outcome of [data_fetch.fetch_stock_data]: what it returns and
    what it logs. *)
Definition fetched (w : world) (stock : string)
  : option (list bar) * list (level * message) :=
  match download w stock with
  | inl e => (None, [(ERROR, Error_fetching_data_for stock e)])
  | inr df =>
      if empty df then (None, [(WARNING, No_data_returned_for stock)])
      else if has_Datetime df then (Some (records df), [])
      else (None, [(ERROR, Error_fetching_data_for stock (KeyError "Datetime"))])
  end.

Lemma fetch_stock_data_spec w s stock :
  data_fetch.fetch_stock_data stock w s
  = (inr (fetched w stock).1, add_log s (fetched w stock).2).
Proof.
  unfold data_fetch.fetch_stock_data, fetched, try_except, bind, yf_download.
  destruct (download w stock) as [e|df]; [done|].
  destruct (empty df); [done|].
  unfold tz_convert. destruct (has_Datetime df); simpl; [|done].
  by rewrite add_log_nil.
Qed.

(** A frame that is not empty and has its columns comes back whole. *)
Lemma fetched_some w stock df :
  (fetched w stock).1 = Some df ->
  exists fr, download w stock = inr fr /\ has_Datetime fr = true
             /\ records fr = df /\ df <> [] /\ (fetched w stock).2 = [].
Proof.
  unfold fetched. destruct (download w stock) as [e|fr]; [done|].
  unfold empty. destruct (records fr) as [|b l] eqn:Hr; [done|].
  destruct (has_Datetime fr) eqn:Hd; [|done].
  simpl. intros [= <-]. exists fr. by rewrite Hr.
Qed.

(** The outcome of [data_fetch_v1.fetch_stock_data]. *)
Definition fetched_v1 (names : list string) (w : world) (stock : string)
  : option (list bar) * list (level * message) :=
  match download w stock with
  | inl e => (None, [(ERROR, Error_fetching_data_for stock e)])
  | inr df =>
      if empty df then (None, [(WARNING, No_data_returned_for stock)])
      else if has_Datetime df then
        let end_time := replace_minute (clock w) (minute (clock w) / 15 * 15) in
        if existsb (String.eqb "timedelta") names then
          match sub_minutes end_time 15 with
          | inl e => (None, [(ERROR, Error_fetching_data_for stock e)])
          | inr start_time =>
              (Some (filter (fun b => dt_le start_time (Datetime b)
                                      && dt_lt (Datetime b) end_time) (records df)), [])
          end
        else (None, [(ERROR, Error_fetching_data_for stock (NameError "timedelta"))])
      else (None, [(ERROR, Error_fetching_data_for stock (KeyError "Datetime"))])
  end.

Lemma fetch_stock_data_v1_spec names w s stock :
  data_fetch_v1.fetch_stock_data names stock w s
  = (inr (fetched_v1 names w stock).1, add_log s (fetched_v1 names w stock).2).
Proof.
  unfold data_fetch_v1.fetch_stock_data, fetched_v1, try_except, bind, yf_download.
  unfold data_fetch_v1.minus_timedelta_minutes, data_fetch_v1.global, bind.
  destruct (download w stock) as [e|df]; [done|].
  destruct (empty df); [done|].
  unfold tz_convert, datetime_now.
  destruct (has_Datetime df); [|done].
  destruct (existsb (String.eqb "timedelta") names); [|done].
  cbn [ret fst snd].
  destruct (sub_minutes _ 15) as [e|st]; [done|].
  cbn [ret fst snd]. by rewrite add_log_nil.
Qed.

(** ** [insert_data] *)

Lemma set_db_same s : set_db (db s) s = s.
Proof. by destruct s. Qed.

(** Text cells are bound, line by line, to the rows [to_record] gives. *)
Lemma bind_all_text df : bind_all (astype_str_to_records df) = inr (map to_record df).
Proof.
  induction df as [|b df IH]; [done|].
  unfold astype_str_to_records in *. cbn [map bind_all]. by rewrite IH.
Qed.

(** [Timestamp] cells are refused at the first line. *)
Lemma bind_all_timestamps df :
  bind_all (to_records df)
  = match df with [] => inr [] | _ :: _ => inl timestamp_not_supported end.
Proof. by destruct df. Qed.

Lemma insert_data_spec w s stock df :
  data_fetch.insert_data stock df w s =
    match insert_error w stock with
    | Some e => (inl e, s)
    | None =>
        match db s !! stock with
        | None => (inl (OperationalError ("no such table: " +:+ stock)), s)
        | Some t =>
            match df with
            | [] => (inr tt, s)
            | _ :: _ => (inl timestamp_not_supported, s)
            end
        end
    end.
Proof.
  unfold data_fetch.insert_data, executemany_insert_or_ignore.
  rewrite bind_all_timestamps.
  destruct (insert_error w stock); [done|].
  destruct (db s !! stock) as [t|] eqn:Ht; [|done].
  destruct df; [|done].
  cbn [Sqlite.executemany fold_left]. by rewrite insert_id, set_db_same.
Qed.

Lemma insert_data_v1_spec w s stock df :
  data_fetch_v1.insert_data stock df w s =
    match insert_error w stock with
    | Some e => (inl e, s)
    | None =>
        match db s !! stock with
        | None => (inl (OperationalError ("no such table: " +:+ stock)), s)
        | Some t =>
            (inr tt,
             add_log (set_db (<[stock := Sqlite.executemany t (map to_record df)]> (db s)) s)
               [(INFO, Inserted_rows_duplicates_ignored stock (length df))])
        end
    end.
Proof.
  unfold data_fetch_v1.insert_data, bind, executemany_insert_or_ignore.
  rewrite bind_all_text.
  destruct (insert_error w stock); [done|]. destruct (db s !! stock); [|done].
  unfold astype_str_to_records. by rewrite length_map.
Qed.

(** The tables after a call of [insert_data] of [data_fetch_v1.py]. *)
Definition inserted_db (w : world) (d : gmap string (list row)) (stock : string)
    (df : list bar) : gmap string (list row) :=
  match insert_error w stock, d !! stock with
  | None, Some t => <[stock := Sqlite.executemany t (map to_record df)]> d
  | _, _ => d
  end.

(** [insert_data] of [data_fetch.py] stores nothing. *)
Lemma insert_data_db w s stock df :
  db (exec (data_fetch.insert_data stock df) w s) = db s.
Proof.
  unfold exec. rewrite insert_data_spec.
  destruct (insert_error w stock); [done|]. destruct (db s !! stock); [|done].
  by destruct df.
Qed.

Lemma insert_data_v1_db w s stock df :
  db (exec (data_fetch_v1.insert_data stock df) w s) = inserted_db w (db s) stock df.
Proof.
  unfold exec, inserted_db. rewrite insert_data_v1_spec.
  destruct (insert_error w stock); [done|]. by destruct (db s !! stock).
Qed.

Lemma inserted_db_idempotent w d stock df :
  inserted_db w (inserted_db w d stock df) stock df = inserted_db w d stock df.
Proof.
  unfold inserted_db. destruct (insert_error w stock); [done|].
  destruct (d !! stock) as [t|] eqn:Ht; [|by rewrite Ht].
  rewrite lookup_insert_eq, insert_insert_eq.
  by rewrite executemany_idempotent.
Qed.

(* ================================================================== *)
(** * Upsert: idempotence, first write wins, key uniqueness *)
(* ================================================================== *)

Lemma has_key_app k t l :
  Sqlite.has_key k (t ++ l) = Sqlite.has_key k t || Sqlite.has_key k l.
Proof. unfold Sqlite.has_key. apply existsb_app. Qed.

Lemma has_key_singleton k r :
  Sqlite.has_key k [r] = String.eqb (datetime r) k.
Proof. unfold Sqlite.has_key. simpl. apply orb_false_r. Qed.

Lemma insert_or_ignore_fresh t r :
  Sqlite.has_key (datetime r) t = false -> Sqlite.insert_or_ignore t r = t ++ [r].
Proof. unfold Sqlite.insert_or_ignore. by intros ->. Qed.

Lemma insert_or_ignore_known t r :
  Sqlite.has_key (datetime r) t = true -> Sqlite.insert_or_ignore t r = t.
Proof. unfold Sqlite.insert_or_ignore. by intros ->. Qed.

Lemma eqb_neq_false (a b : string) : a <> b -> String.eqb a b = false.
Proof. intros Hne. by apply String.eqb_neq. Qed.

(** Two overlapping batches: keys [k1, k2] and then [k2, k3]. *)
Lemma executemany_overlap t r1 r2 r2' r3 :
  datetime r2' = datetime r2 ->
  NoDup [datetime r1; datetime r2; datetime r3] ->
  Sqlite.has_key (datetime r1) t = false ->
  Sqlite.has_key (datetime r2) t = false ->
  Sqlite.has_key (datetime r3) t = false ->
  Sqlite.executemany (Sqlite.executemany t [r1; r2]) [r2'; r3] = t ++ [r1; r2; r3].
Proof.
  intros H22 Hnd H1 H2 H3.
  apply NoDup_cons in Hnd as [Hn1 Hnd]. apply NoDup_cons in Hnd as [Hn2 _].
  assert (datetime r1 <> datetime r2) as H12 by set_solver.
  assert (datetime r1 <> datetime r3) as H13 by set_solver.
  assert (datetime r2 <> datetime r3) as H23 by set_solver.
  unfold Sqlite.executemany. simpl.
  rewrite (insert_or_ignore_fresh t r1) by done.
  rewrite (insert_or_ignore_fresh (t ++ [r1]) r2).
  2:{ rewrite has_key_app, H2, has_key_singleton. by apply eqb_neq_false. }
  rewrite (insert_or_ignore_known _ r2').
  2:{ rewrite H22, !has_key_app, !has_key_singleton, String.eqb_refl.
      by rewrite orb_true_r. }
  rewrite insert_or_ignore_fresh.
  2:{ rewrite !has_key_app, !has_key_singleton, H3.
      by rewrite !eqb_neq_false. }
  by rewrite <- !app_assoc.
Qed.

Lemma inserted_db_overlap w d stock t b1 b2 b2' b3 :
  insert_error w stock = None ->
  d !! stock = Some t ->
  str_datetime (Datetime b2') = str_datetime (Datetime b2) ->
  NoDup [str_datetime (Datetime b1); str_datetime (Datetime b2);
         str_datetime (Datetime b3)] ->
  (forall b, b ∈ [b1; b2; b3] ->
             Sqlite.has_key (str_datetime (Datetime b)) t = false) ->
  inserted_db w (inserted_db w d stock [b1; b2]) stock [b2'; b3] !! stock
  = Some (t ++ [to_record b1; to_record b2; to_record b3]).
Proof.
  intros He Ht H22 Hnd Hfresh. unfold inserted_db.
  rewrite He, Ht, lookup_insert_eq, lookup_insert_eq. f_equal.
  apply executemany_overlap; try done; apply Hfresh; set_solver.
Qed.

(** C1. Applying [insert_data] with the same frame twice leaves the
    tables as applying it once does, in both scripts and from every
    state. In [data_fetch_v1.py] a batch at keys T1, T2 followed by a
    batch at T2, T3 adds exactly one row for each of T1, T2 and T3
    after the rows the table had. In [data_fetch.py] the datetime
    column is never converted to text: on every frame with a line the
    insert raises at the first parameter and stores nothing, so there
    the two batches leave the table without T1, T2 and T3. *)
Theorem insert_data_idempotent :
  (forall w s stock df,
      db (exec (data_fetch.insert_data stock df) w
            (exec (data_fetch.insert_data stock df) w s))
      = db (exec (data_fetch.insert_data stock df) w s)
      /\
      db (exec (data_fetch_v1.insert_data stock df) w
            (exec (data_fetch_v1.insert_data stock df) w s))
      = db (exec (data_fetch_v1.insert_data stock df) w s))
  /\
  (forall w s stock t b1 b2 b2' b3,
      insert_error w stock = None ->
      db s !! stock = Some t ->
      str_datetime (Datetime b2') = str_datetime (Datetime b2) ->
      NoDup [str_datetime (Datetime b1); str_datetime (Datetime b2);
             str_datetime (Datetime b3)] ->
      (forall b, b ∈ [b1; b2; b3] ->
                 Sqlite.has_key (str_datetime (Datetime b)) t = false) ->
      db (exec (data_fetch_v1.insert_data stock [b2'; b3]) w
            (exec (data_fetch_v1.insert_data stock [b1; b2]) w s)) !! stock
      = Some (t ++ [to_record b1; to_record b2; to_record b3]))
  /\
  (forall w s stock t b df,
      insert_error w stock = None ->
      db s !! stock = Some t ->
      data_fetch.insert_data stock (b :: df) w s = (inl timestamp_not_supported, s))
  /\
  (forall w s stock t b1 b2 b2' b3,
      db s !! stock = Some t ->
      db (exec (data_fetch.insert_data stock [b2'; b3]) w
            (exec (data_fetch.insert_data stock [b1; b2]) w s)) !! stock
      = Some t).
Proof.
  repeat split.
  - by rewrite !insert_data_db.
  - rewrite !insert_data_v1_db. apply inserted_db_idempotent.
  - intros w s stock t b1 b2 b2' b3 He Ht H22 Hnd Hfresh.
    rewrite !insert_data_v1_db. by apply inserted_db_overlap.
  - intros w s stock t b df He Ht. by rewrite insert_data_spec, He, Ht.
  - intros w s stock t b1 b2 b2' b3 Ht. by rewrite !insert_data_db.
Qed.

(** C3. A row whose timestamp is already a key of the table changes
    nothing: the tables after [insert_data] are the tables before, so
    the stored record keeps every one of its values, whatever values
    the incoming row carries. *)
Theorem insert_data_first_write_wins (w : world) (s : state) (stock : string)
    (t : list row) (old : row) (b : bar) :
  db s !! stock = Some t ->
  old ∈ t ->
  datetime old = str_datetime (Datetime b) ->
  db (exec (data_fetch.insert_data stock [b]) w s) = db s /\
  db (exec (data_fetch_v1.insert_data stock [b]) w s) = db s /\
  db (exec (data_fetch.insert_data stock [b]) w s) !! stock = Some t /\
  db (exec (data_fetch_v1.insert_data stock [b]) w s) !! stock = Some t.
Proof.
  intros Ht Hold Hkey.
  rewrite !insert_data_db, !insert_data_v1_db.
  assert (inserted_db w (db s) stock [b] = db s) as ->; [|by rewrite Ht].
  unfold inserted_db. destruct (insert_error w stock); [done|]. rewrite Ht.
  rewrite executemany_all_known.
  - by apply insert_id.
  - intros r Hr. apply list_elem_of_singleton in Hr as ->. simpl.
    apply has_key_spec. rewrite <- Hkey. by apply list_elem_of_fmap_2.
Qed.

(** ** Key uniqueness is an invariant *)

Lemma unique_timestamps_on_db : on_db unique_timestamps.
Proof. intros s s' Hdb Hu stock t. rewrite <- Hdb. apply Hu. Qed.

Lemma unique_timestamps_initial : unique_timestamps initial.
Proof. intros stock t. simpl. by rewrite lookup_empty. Qed.

Lemma unique_create_table stock :
  preserves unique_timestamps (create_table_if_not_exists stock).
Proof.
  intros w s Hu. unfold create_table_if_not_exists.
  destruct (db s !! stock) eqn:Hs; [done|].
  intros stock' t. simpl.
  destruct (decide (stock = stock')) as [->|Hne].
  - rewrite lookup_insert_eq. intros [= <-]. apply NoDup_nil_2.
  - rewrite lookup_insert_ne by done. apply Hu.
Qed.

Lemma unique_executemany stock rows :
  preserves unique_timestamps (executemany_insert_or_ignore stock rows).
Proof.
  intros w s Hu. unfold executemany_insert_or_ignore.
  destruct (insert_error w stock); [done|].
  destruct (db s !! stock) as [t|] eqn:Hs; [|done].
  destruct (bind_all rows) as [e|bound]; [done|].
  intros stock' t'. simpl.
  destruct (decide (stock = stock')) as [->|Hne].
  - rewrite lookup_insert_eq. intros [= <-].
    apply executemany_NoDup. by apply (Hu stock').
  - rewrite lookup_insert_ne by done. apply Hu.
Qed.

Create HintDb keeps discriminated.

#[local] Hint Resolve preserves_ret preserves_raise preserves_bind
  preserves_try_except preserves_for_each preserves_if : keeps.
#[local] Hint Resolve unique_timestamps_on_db unique_create_table
  unique_executemany : keeps.
#[local] Hint Resolve preserves_logging preserves_yf_download
  preserves_datetime_now preserves_tz_convert preserves_open_readme
  preserves_write preserves_read_sql_query : keeps.

(** Unfold one layer of a script and let the rules above do the rest. *)
Ltac keeps :=
  repeat first
    [ progress intros
    | apply preserves_bind
    | apply preserves_try_except
    | apply preserves_for_each
    | apply preserves_if
    | match goal with
      | |- preserves _ (match ?x with _ => _ end) => destruct x
      end
    | solve [eauto with keeps] ].

Lemma unique_init_db stocks : preserves unique_timestamps (data_fetch.init_db stocks).
Proof. unfold data_fetch.init_db. keeps. Qed.

Lemma unique_insert_data stock df :
  preserves unique_timestamps (data_fetch.insert_data stock df).
Proof. unfold data_fetch.insert_data. keeps. Qed.

Lemma unique_fetch_stock_data stock :
  preserves unique_timestamps (data_fetch.fetch_stock_data stock).
Proof. unfold data_fetch.fetch_stock_data. keeps. Qed.

Lemma unique_update_readme stocks :
  preserves unique_timestamps (data_fetch.update_readme stocks).
Proof. unfold data_fetch.update_readme, data_fetch.readme_section. keeps. Qed.

Lemma unique_process stock : preserves unique_timestamps (data_fetch.process stock).
Proof.
  unfold data_fetch.process. apply preserves_bind.
  - apply unique_fetch_stock_data.
  - intros [[|b df]|]; keeps.
Qed.

Lemma unique_main stocks : preserves unique_timestamps (data_fetch.main stocks).
Proof.
  unfold data_fetch.main.
  pose proof unique_process. pose proof (unique_init_db stocks).
  pose proof (unique_update_readme stocks). keeps.
Qed.

Lemma unique_run_op stocks o : preserves unique_timestamps (run_op stocks o).
Proof.
  destruct o; simpl.
  - apply unique_init_db.
  - apply unique_insert_data.
  - apply unique_update_readme.
  - apply unique_main.
Qed.

(** C2. Starting from the empty store, after every sequence of
    [init_db], [insert_data], [update_readme] and [main], each run in a
    world of its own, no table holds two rows with the same timestamp. *)
Theorem timestamps_stay_unique (stocks : list string) (ops : list (world * op)) :
  unique_timestamps (run_ops stocks ops initial).
Proof.
  unfold run_ops.
  assert (forall s, unique_timestamps s ->
            unique_timestamps
              (fold_left (fun s wo => exec (run_op stocks wo.2) wo.1 s) ops s)) as H.
  { induction ops as [|[w o] ops IH]; intros s Hs; simpl; [done|].
    apply IH. by apply unique_run_op. }
  apply H, unique_timestamps_initial.
Qed.

(* ================================================================== *)
(** * The phases of a cycle *)
(* ================================================================== *)

Lemma bind_returns {A B : Type} (m : M A) (f : A -> M B) w s a s1 :
  m w s = (inr a, s1) -> bind m f w s = f a w s1.
Proof. unfold bind. by intros ->. Qed.

Lemma bind_raises {A B : Type} (m : M A) (f : A -> M B) w s e s1 :
  m w s = (inl e, s1) -> bind m f w s = (inl e, s1).
Proof. unfold bind. by intros ->. Qed.

(** ** [init_db] *)

(** The tables after [CREATE TABLE IF NOT EXISTS] for every symbol. *)
Definition created (stocks : list string) (d : gmap string (list row))
  : gmap string (list row) :=
  fold_left (fun d x => match d !! x with Some _ => d | None => <[x := []]> d end)
            stocks d.

Lemma init_db_spec stocks w s :
  data_fetch.init_db stocks w s = (inr tt, set_db (created stocks (db s)) s).
Proof.
  unfold data_fetch.init_db, created. revert s.
  induction stocks as [|x stocks IH]; intros s; simpl.
  - by rewrite set_db_same.
  - unfold bind, create_table_if_not_exists at 1.
    destruct (db s !! x); rewrite IH; [done|]. by destruct s.
Qed.

Lemma created_lookup stocks d x :
  created stocks d !! x
  = if decide (x ∈ stocks) then Some (default [] (d !! x)) else d !! x.
Proof.
  unfold created. revert d.
  induction stocks as [|y stocks IH]; intros d; cbn [fold_left].
  - case_decide as Hin; [by apply elem_of_nil in Hin | done].
  - rewrite IH. clear IH.
    assert (forall d' : gmap string (list row),
              d' = match d !! y with Some _ => d | None => <[y := []]> d end ->
              (x = y -> default [] (d' !! x) = default [] (d !! x)) /\
              (x = y -> is_Some (d' !! x)) /\
              (x <> y -> d' !! x = d !! x)) as Hstep.
    { intros d' ->. destruct (d !! y) eqn:Hy.
      - split; [done|]. split; [|done]. intros ->. by rewrite Hy.
      - split; [|split].
        + intros ->. by rewrite lookup_insert_eq, Hy.
        + intros ->. by rewrite lookup_insert_eq.
        + intros Hne. by rewrite lookup_insert_ne. }
    destruct (Hstep _ eq_refl) as (Heq & Hsome & Hne).
    destruct (decide (x = y)) as [Hxy|Hxy].
    + rewrite (decide_True (P := x ∈ y :: stocks)) by (subst; by left).
      case_decide; [by rewrite Heq|].
      destruct (Hsome Hxy) as [t Ht]. rewrite Ht. f_equal.
      specialize (Heq Hxy). by rewrite Ht in Heq.
    + rewrite (Hne Hxy).
      repeat case_decide; try done; exfalso.
      * match goal with
        | H : ~ (x ∈ stocks), H' : x ∈ y :: stocks |- _ =>
            apply elem_of_cons in H' as [?|?]; done
        | H : x ∈ stocks, H' : ~ (x ∈ y :: stocks) |- _ => apply H'; by right
        end.
      * match goal with
        | H : ~ (x ∈ stocks), H' : x ∈ y :: stocks |- _ =>
            apply elem_of_cons in H' as [?|?]; done
        | H : x ∈ stocks, H' : ~ (x ∈ y :: stocks) |- _ => apply H'; by right
        end.
Qed.

(** ** One turn of the loop of [main] *)

Lemma process_no_frame stock w s :
  (fetched w stock).1 = None ->
  data_fetch.process stock w s
  = (inr tt, add_log s ((fetched w stock).2 ++ [(WARNING, No_data_to_insert_for stock)])).
Proof.
  intros Hf. unfold data_fetch.process.
  rewrite (bind_returns _ _ _ _ _ _ (fetch_stock_data_spec w s stock)), Hf.
  unfold logging. by rewrite add_log_add_log.
Qed.

(** A frame that reaches [insert_data] has a line, so the turn ends in
    the insert: [main] of [data_fetch.py] logs no inserted count. *)
Lemma process_frame stock w s df :
  (fetched w stock).1 = Some df ->
  data_fetch.process stock w s =
    match insert_error w stock with
    | Some e => (inl e, s)
    | None =>
        match db s !! stock with
        | None => (inl (OperationalError ("no such table: " +:+ stock)), s)
        | Some t => (inl timestamp_not_supported, s)
        end
    end.
Proof.
  intros Hf. unfold data_fetch.process.
  rewrite (bind_returns _ _ _ _ _ _ (fetch_stock_data_spec w s stock)), Hf.
  destruct (fetched_some _ _ _ Hf) as (fr & _ & _ & _ & Hne & ->).
  rewrite add_log_nil.
  destruct df as [|b df]; [done|].
  unfold bind. rewrite insert_data_spec.
  destruct (insert_error w stock); [done|].
  by destruct (db s !! stock).
Qed.

Lemma process_frame_raises stock w s df :
  (fetched w stock).1 = Some df ->
  exists e, data_fetch.process stock w s = (inl e, s).
Proof.
  intros Hf. rewrite (process_frame _ _ _ _ Hf).
  destruct (insert_error w stock); [by eexists|].
  destruct (db s !! stock); by eexists.
Qed.

Lemma process_v1_no_frame names stock w s :
  (fetched_v1 names w stock).1 = None ->
  data_fetch_v1.process names stock w s
  = (inr tt, add_log s ((fetched_v1 names w stock).2
                        ++ [(WARNING, No_data_to_insert_for stock)])).
Proof.
  intros Hf. unfold data_fetch_v1.process.
  rewrite (bind_returns _ _ _ _ _ _ (fetch_stock_data_v1_spec names w s stock)), Hf.
  unfold logging. by rewrite add_log_add_log.
Qed.

(** ** [update_readme] *)

Section readme.

(** How a script turns the rows of a symbol into a chunk. *)
Variable render : string -> list row -> chunk.

Definition section_chunks (d : gmap string (list row)) (stock : string) : list chunk :=
  match d !! stock with
  | Some t =>
      match Sqlite.select_recent 2 t with
      | [] => []
      | rows => [render stock rows]
      end
  | None => []
  end.

Definition section_errors (d : gmap string (list row)) (stock : string)
  : list (level * message) :=
  match d !! stock with
  | Some _ => []
  | None => [(ERROR, Error_updating_README_for stock
                       (DatabaseError ("no such table: " +:+ stock)))]
  end.

(** One turn of the loop, for either script. *)
Definition turn (stock : string) : M unit :=
  try_except
    (df <- read_sql_query stock 2 ;;
     match df with
     | [] => ret tt
     | _ :: _ => write (render stock df)
     end)
    (fun e => logging ERROR (Error_updating_README_for stock e)).

Lemma turn_spec stock w s cs :
  readme s = Some cs ->
  turn stock w s
  = (inr tt, {| db := db s;
                log := log s ++ section_errors (db s) stock;
                readme := Some (cs ++ section_chunks (db s) stock) |}).
Proof.
  intros Hr. unfold turn, try_except, bind, read_sql_query, section_errors,
    section_chunks.
  destruct s as [d lg rd]. simpl in *. subst rd.
  destruct (d !! stock) as [t|]; [|by rewrite app_nil_r].
  destruct (Sqlite.select_recent 2 t) as [|r rows]; simpl.
  - by rewrite !app_nil_r.
  - unfold write. simpl. by rewrite app_nil_r.
Qed.

Lemma turns_spec stocks w s cs :
  readme s = Some cs ->
  for_each stocks turn w s
  = (inr tt, {| db := db s;
                log := log s ++ flat_map (section_errors (db s)) stocks;
                readme := Some (cs ++ flat_map (section_chunks (db s)) stocks) |}).
Proof.
  revert s cs. induction stocks as [|x stocks IH]; intros s cs Hr; simpl.
  - destruct s. simpl in *. subst. by rewrite !app_nil_r.
  - rewrite (bind_returns _ _ _ _ _ _ (turn_spec x w s cs Hr)).
    rewrite (IH _ (cs ++ section_chunks (db s) x)) by done.
    simpl. by rewrite <- !app_assoc.
Qed.

Lemma section_chunks_section_of d stock c :
  (forall x rows, section_of (render x rows) = Some x) ->
  c ∈ section_chunks d stock -> section_of c = Some stock.
Proof.
  intros Hrender. unfold section_chunks.
  destruct (d !! stock) as [t|]; [|by intros ?%elem_of_nil].
  destruct (Sqlite.select_recent 2 t); [by intros ?%elem_of_nil|].
  by intros ->%list_elem_of_singleton.
Qed.

End readme.

(** The README after [update_readme] and what it logged. *)
Definition snapshot (render : string -> list row -> chunk) (stocks : list string)
    (w : world) (s : state) : state :=
  {| db := db s;
     log := log s ++ flat_map (section_errors (db s)) stocks;
     readme := Some ([Title; Last_updated (clock w)]
                     ++ flat_map (section_chunks render (db s)) stocks) |}.

Definition html (stock : string) (df : list row) : chunk :=
  Html_section stock (map (fun r => (datetime r, close r, volume r)) df).

Lemma update_readme_spec stocks w s :
  data_fetch.update_readme stocks w s = (inr tt, snapshot Markdown_section stocks w s).
Proof.
  unfold data_fetch.update_readme, snapshot.
  change data_fetch.readme_section with (turn Markdown_section).
  unfold bind at 1. simpl. unfold bind at 1. simpl. unfold bind at 1. simpl.
  unfold bind at 1. simpl.
  by rewrite (turns_spec Markdown_section stocks w _ [Title; Last_updated (clock w)]).
Qed.

Lemma update_readme_v1_spec stocks w s :
  data_fetch_v1.update_readme stocks w s = (inr tt, snapshot html stocks w s).
Proof.
  unfold data_fetch_v1.update_readme, snapshot.
  change data_fetch_v1.readme_section with (turn html).
  unfold bind at 1. simpl. unfold bind at 1. simpl. unfold bind at 1. simpl.
  unfold bind at 1. simpl.
  by rewrite (turns_spec html stocks w _ [Title; Last_updated (clock w)]).
Qed.

(* ================================================================== *)
(** * Concrete runs *)
(* ================================================================== *)

(** A minute of 5 January 2024. *)
Definition at_time (h m : Z) : pydatetime := mk_datetime 2024 1 5 h m 0 0.

Definition bar_at (h m : Z) (price : float) (vol : Z) : bar :=
  mk_bar (at_time h m) price price price price vol.

(** A database that holds the given table for INFY.NS and nothing else. *)
Definition only_infy (t : list row) : state :=
  {| db := {[ "INFY.NS" := t ]}; log := []; readme := None |}.

(** The provider answers every symbol with [answer]. *)
Definition steady (now : pydatetime) (answer : exn + DataFrame) : world :=
  {| download := fun _ => answer; clock := now; insert_error := fun _ => None |}.

(** Batches at 10:00, 10:01 and then 10:01, 10:02 into an empty
    INFY.NS table: three rows in [data_fetch_v1.py], a
    [ProgrammingError] and no row in [data_fetch.py]. *)
Lemma insert_data_idempotent_witness :
  db (exec (data_fetch_v1.insert_data "INFY.NS"
              [bar_at 10 1 101.5 20; bar_at 10 2 102.5 30]) (quiet (at_time 10 7))
        (exec (data_fetch_v1.insert_data "INFY.NS"
                 [bar_at 10 0 100.5 10; bar_at 10 1 101.5 20]) (quiet (at_time 10 7))
           (only_infy []))) !! "INFY.NS"
  = Some ([] ++ [to_record (bar_at 10 0 100.5 10); to_record (bar_at 10 1 101.5 20);
                 to_record (bar_at 10 2 102.5 30)])
  /\
  data_fetch.insert_data "INFY.NS" [bar_at 10 0 100.5 10; bar_at 10 1 101.5 20]
    (quiet (at_time 10 7)) (only_infy [])
  = (inl (ProgrammingError "Error binding parameter 1: type 'Timestamp' is not supported"),
     only_infy [])
  /\
  db (exec (data_fetch.insert_data "INFY.NS"
              [bar_at 10 1 101.5 20; bar_at 10 2 102.5 30]) (quiet (at_time 10 7))
        (exec (data_fetch.insert_data "INFY.NS"
                 [bar_at 10 0 100.5 10; bar_at 10 1 101.5 20]) (quiet (at_time 10 7))
           (only_infy []))) !! "INFY.NS"
  = Some [].
Proof.
  destruct insert_data_idempotent as (_ & Hv1 & Hraise & Hv0).
  split; [|split].
  - apply Hv1.
    + reflexivity.
    + reflexivity.
    + reflexivity.
    + refine (bool_decide_unpack (NoDup _) _). vm_compute. exact I.
    + intros b _. reflexivity.
  - apply (Hraise _ _ _ []); reflexivity.
  - apply Hv0. reflexivity.
Defined.

(** The stored close of 100.5 survives an incoming 999.0 for the same
    minute. *)
Lemma insert_data_first_write_wins_witness :
  let s := only_infy [to_record (bar_at 10 0 100.5 10)] in
  let b := bar_at 10 0 999.0 77 in
  db (exec (data_fetch.insert_data "INFY.NS" [b]) (quiet (at_time 10 7)) s) = db s /\
  db (exec (data_fetch_v1.insert_data "INFY.NS" [b]) (quiet (at_time 10 7)) s) = db s /\
  db (exec (data_fetch.insert_data "INFY.NS" [b]) (quiet (at_time 10 7)) s) !! "INFY.NS"
  = Some [to_record (bar_at 10 0 100.5 10)] /\
  db (exec (data_fetch_v1.insert_data "INFY.NS" [b]) (quiet (at_time 10 7)) s) !! "INFY.NS"
  = Some [to_record (bar_at 10 0 100.5 10)].
Proof.
  apply (insert_data_first_write_wins _ _ _ _ (to_record (bar_at 10 0 100.5 10))).
  - reflexivity.
  - apply list_elem_of_singleton. reflexivity.
  - reflexivity.
Defined.

(* ================================================================== *)
(** * data_fetch_v1.py: the window and the unbound name *)
(* ================================================================== *)

(** The window lines of [fetch_stock_data], as they would run with
    [timedelta] bound: [(start_time, end_time)]. *)
Definition aligned_window (now : pydatetime) : exn + (pydatetime * pydatetime) :=
  let end_time := replace_minute now (minute now / 15 * 15) in
  match sub_minutes end_time 15 with
  | inl e => inl e
  | inr start_time => inr (start_time, end_time)
  end.

Lemma timedelta_not_bound :
  existsb (String.eqb "timedelta") data_fetch_v1.module_names = false.
Proof. reflexivity. Qed.

Lemma fetched_v1_nothing w stock :
  (fetched_v1 data_fetch_v1.module_names w stock).1 = None.
Proof.
  unfold fetched_v1. rewrite timedelta_not_bound.
  destruct (download w stock) as [e|df]; [done|].
  destruct (empty df); [done|]. by destruct (has_Datetime df).
Qed.

Lemma fetched_v1_name_error w stock df :
  download w stock = inr df -> empty df = false -> has_Datetime df = true ->
  (fetched_v1 data_fetch_v1.module_names w stock).2
  = [(ERROR, Error_fetching_data_for stock (NameError "timedelta"))].
Proof.
  intros Hd He Hc. unfold fetched_v1.
  by rewrite timedelta_not_bound, Hd, He, Hc.
Qed.

(** With the name bound the function would return the bars of the
    half-open window. *)
Lemma fetched_v1_with_timedelta names w stock df start_time end_time :
  existsb (String.eqb "timedelta") names = true ->
  download w stock = inr df -> empty df = false -> has_Datetime df = true ->
  aligned_window (clock w) = inr (start_time, end_time) ->
  fetched_v1 names w stock
  = (Some (filter (fun b => dt_le start_time (Datetime b)
                            && dt_lt (Datetime b) end_time) (records df)), []).
Proof.
  intros Hn Hd He Hc. unfold fetched_v1, aligned_window.
  rewrite Hn, Hd, He, Hc.
  destruct (sub_minutes _ 15) as [e|st]; [done|]. by intros [= <- <-].
Qed.

Lemma aligned_window_10_07 :
  aligned_window (at_time 10 7) = inr (at_time 9 45, at_time 10 0).
Proof. reflexivity. Qed.

Lemma aligned_window_10_15 :
  aligned_window (at_time 10 15) = inr (at_time 10 0, at_time 10 15).
Proof. reflexivity. Qed.

(** The loop of [main] in [data_fetch_v1.py] only writes to the log. *)
Definition v1_loop_log (w : world) (stocks : list string) : list (level * message) :=
  flat_map (fun x => (fetched_v1 data_fetch_v1.module_names w x).2
                     ++ [(WARNING, No_data_to_insert_for x)]) stocks.

Lemma v1_loop_spec stocks w s :
  for_each stocks (data_fetch_v1.process data_fetch_v1.module_names) w s
  = (inr tt, add_log s (v1_loop_log w stocks)).
Proof.
  unfold v1_loop_log. revert s.
  induction stocks as [|x stocks IH]; intros s; simpl.
  - by rewrite add_log_nil.
  - rewrite (bind_returns _ _ _ _ _ _
               (process_v1_no_frame _ x w s (fetched_v1_nothing w x))).
    by rewrite IH, add_log_add_log.
Qed.

Lemma v1_main_spec stocks w s :
  data_fetch_v1.main data_fetch_v1.module_names stocks w s
  = (inr tt,
     add_log
       (snapshot html stocks w
          (add_log (set_db (created stocks (db s))
                      (add_log s [(INFO, Starting_data_fetch_cycle)]))
             (v1_loop_log w stocks)))
       [(INFO, Cycle_complete)]).
Proof.
  unfold data_fetch_v1.main.
  unfold bind at 1. cbn [logging].
  change (data_fetch_v1.init_db stocks) with (data_fetch.init_db stocks).
  rewrite (bind_returns _ _ _ _ _ _ (init_db_spec stocks w _)).
  rewrite (bind_returns _ _ _ _ _ _ (v1_loop_spec stocks w _)).
  by rewrite (bind_returns _ _ _ _ _ _ (update_readme_v1_spec stocks w _)).
Qed.

(** C10. In [data_fetch_v1.py], [fetch_stock_data] returns [None] in
    every world; on a frame that is not empty and has its columns the
    reason is the [NameError] for [timedelta], caught by the handler
    and logged; and a whole run of [main] returns with every table
    holding the rows it held before ([init_db] adds empty tables for
    the symbols that had none). *)
Theorem v1_fetch_never_returns_rows :
  (forall w s stock,
      result (data_fetch_v1.fetch_stock_data data_fetch_v1.module_names stock) w s
      = inr None)
  /\
  (forall w s stock df,
      download w stock = inr df -> empty df = false -> has_Datetime df = true ->
      exec (data_fetch_v1.fetch_stock_data data_fetch_v1.module_names stock) w s
      = add_log s [(ERROR, Error_fetching_data_for stock (NameError "timedelta"))])
  /\
  (forall stocks w s,
      result (data_fetch_v1.main data_fetch_v1.module_names stocks) w s = inr tt /\
      forall x,
        db (exec (data_fetch_v1.main data_fetch_v1.module_names stocks) w s) !! x
        = if decide (x ∈ stocks) then Some (default [] (db s !! x)) else db s !! x).
Proof.
  split; [|split].
  - intros w s stock. unfold result.
    rewrite fetch_stock_data_v1_spec. simpl. by rewrite fetched_v1_nothing.
  - intros w s stock df Hd He Hc. unfold exec.
    rewrite fetch_stock_data_v1_spec. simpl.
    by rewrite (fetched_v1_name_error w stock df).
  - intros stocks w s. unfold result, exec. rewrite v1_main_spec. simpl.
    split; [done|]. intros x. apply created_lookup.
Qed.

Lemma v1_fetch_never_returns_rows_witness :
  exec (data_fetch_v1.fetch_stock_data data_fetch_v1.module_names "INFY.NS")
       (steady (at_time 10 7) (inr (mk_frame true [bar_at 9 50 100.5 10])))
       initial
  = add_log initial
      [(ERROR, Error_fetching_data_for "INFY.NS" (NameError "timedelta"))].
Proof.
  apply (proj1 (proj2 v1_fetch_never_returns_rows) _ _ _
           (mk_frame true [bar_at 9 50 100.5 10])); reflexivity.
Defined.

(** C4, at now = 10:07:00 with bars at 09:50 and 10:03 from the
    provider: [data_fetch_v1.fetch_stock_data] computes no window and
    filters nothing; it logs the [NameError] for [timedelta] and
    returns [None].  With the name bound the same call returns the bar
    of 09:50, the one inside the window from 09:45 to 10:00. *)
Theorem v1_window_is_not_computed :
  let w := steady (at_time 10 7)
             (inr (mk_frame true [bar_at 9 50 100.5 10; bar_at 10 3 101.5 20])) in
  data_fetch_v1.fetch_stock_data data_fetch_v1.module_names "INFY.NS" w initial
  = (inr None,
     add_log initial [(ERROR, Error_fetching_data_for "INFY.NS" (NameError "timedelta"))])
  /\
  data_fetch_v1.fetch_stock_data ("timedelta" :: data_fetch_v1.module_names)
    "INFY.NS" w initial
  = (inr (Some [bar_at 9 50 100.5 10]), initial).
Proof.
  intros w. split.
  - rewrite fetch_stock_data_v1_spec, fetched_v1_nothing.
    by rewrite (fetched_v1_name_error w "INFY.NS"
                  (mk_frame true [bar_at 9 50 100.5 10; bar_at 10 3 101.5 20])).
  - rewrite fetch_stock_data_v1_spec.
    rewrite (fetched_v1_with_timedelta _ w "INFY.NS"
               (mk_frame true [bar_at 9 50 100.5 10; bar_at 10 3 101.5 20])
               (at_time 9 45) (at_time 10 0)); try reflexivity.
Qed.

(* ================================================================== *)
(** * What the caller of [fetch_stock_data] can see *)
(* ================================================================== *)

(** C7, as stated, fails: when the provider has no rows and when the
    provider call raises, the caller gets the same value, [None], in
    both scripts. *)
Lemma no_data_and_failure_return_alike :
  result (data_fetch.fetch_stock_data "INFY.NS")
         (steady (at_time 10 7) (inr (mk_frame true []))) initial
  = result (data_fetch.fetch_stock_data "INFY.NS")
           (steady (at_time 10 7) (inl (ProviderError "rate limited"))) initial
  /\
  result (data_fetch_v1.fetch_stock_data data_fetch_v1.module_names "INFY.NS")
         (steady (at_time 10 7) (inr (mk_frame true []))) initial
  = result (data_fetch_v1.fetch_stock_data data_fetch_v1.module_names "INFY.NS")
           (steady (at_time 10 7) (inl (ProviderError "rate limited"))) initial.
Proof. split; reflexivity. Qed.

(** C7, amended.  In both scripts [fetch_stock_data] returns [None] when
    the provider returns zero rows, when the provider call raises, and
    when the frame lacks a column; what tells the cases apart is the
    log alone: a WARNING "No data returned" in the first case, an ERROR
    carrying the exception in the other two. *)
Theorem fetch_outcomes_differ_in_the_log_only (names : list string) (w : world)
    (s : state) (stock : string) :
  (forall df, download w stock = inr df -> empty df = true ->
     data_fetch.fetch_stock_data stock w s
     = (inr None, add_log s [(WARNING, No_data_returned_for stock)]) /\
     data_fetch_v1.fetch_stock_data names stock w s
     = (inr None, add_log s [(WARNING, No_data_returned_for stock)]))
  /\
  (forall e, download w stock = inl e ->
     data_fetch.fetch_stock_data stock w s
     = (inr None, add_log s [(ERROR, Error_fetching_data_for stock e)]) /\
     data_fetch_v1.fetch_stock_data names stock w s
     = (inr None, add_log s [(ERROR, Error_fetching_data_for stock e)]))
  /\
  (forall df, download w stock = inr df -> empty df = false ->
     has_Datetime df = false ->
     data_fetch.fetch_stock_data stock w s
     = (inr None,
        add_log s [(ERROR, Error_fetching_data_for stock (KeyError "Datetime"))]) /\
     data_fetch_v1.fetch_stock_data names stock w s
     = (inr None,
        add_log s [(ERROR, Error_fetching_data_for stock (KeyError "Datetime"))])).
Proof.
  rewrite fetch_stock_data_spec, fetch_stock_data_v1_spec.
  unfold fetched, fetched_v1.
  split; [|split].
  - intros df -> ->. done.
  - intros e ->. done.
  - intros df -> -> ->. done.
Qed.

Lemma fetch_outcomes_differ_in_the_log_only_witness :
  data_fetch.fetch_stock_data "INFY.NS"
    (steady (at_time 10 7) (inl (ProviderError "rate limited"))) initial
  = (inr None,
     add_log initial
       [(ERROR, Error_fetching_data_for "INFY.NS" (ProviderError "rate limited"))])
  /\
  data_fetch_v1.fetch_stock_data data_fetch_v1.module_names "INFY.NS"
    (steady (at_time 10 7) (inl (ProviderError "rate limited"))) initial
  = (inr None,
     add_log initial
       [(ERROR, Error_fetching_data_for "INFY.NS" (ProviderError "rate limited"))]).
Proof.
  apply (proj1 (proj2 (fetch_outcomes_differ_in_the_log_only
                         data_fetch_v1.module_names
                         (steady (at_time 10 7) (inl (ProviderError "rate limited")))
                         initial "INFY.NS"))).
  reflexivity.
Defined.

(* ================================================================== *)
(** * The text order of the keys is the order of the timestamps *)
(* ================================================================== *)

(** A timestamp whose text has the fixed width of a minute bar: at most
    four digits of year, two of every other field, no fraction. *)
Definition fits_format (d : pydatetime) : Prop :=
  0 <= year d < 10 ^ 4 /\ 0 <= month d < 10 ^ 2 /\ 0 <= day d < 10 ^ 2 /\
  0 <= hour d < 10 ^ 2 /\ 0 <= minute d < 10 ^ 2 /\ 0 <= second d < 10 ^ 2 /\
  microsecond d = 0.

Lemma digit_compare x y :
  Ascii_as_OT.compare (digit x) (digit y) = (x mod 10 ?= y mod 10).
Proof.
  unfold digit.
  pose proof (Z.mod_pos_bound x 10 eq_refl) as Hx.
  pose proof (Z.mod_pos_bound y 10 eq_refl) as Hy.
  generalize dependent (x mod 10). generalize dependent (y mod 10).
  intros j Hj i Hi.
  assert (i = 0 \/ i = 1 \/ i = 2 \/ i = 3 \/ i = 4 \/ i = 5 \/ i = 6 \/ i = 7
          \/ i = 8 \/ i = 9) as Hi' by lia.
  assert (j = 0 \/ j = 1 \/ j = 2 \/ j = 3 \/ j = 4 \/ j = 5 \/ j = 6 \/ j = 7
          \/ j = 8 \/ j = 9) as Hj' by lia.
  clear Hi Hj.
  repeat (destruct Hi' as [->|Hi']); try subst i;
    repeat (destruct Hj' as [->|Hj']); try subst j; reflexivity.
Qed.

Lemma compare_by_digits x y :
  (x ?= y) = match x / 10 ?= y / 10 with
             | Eq => x mod 10 ?= y mod 10
             | c => c
             end.
Proof.
  pose proof (Z.div_mod x 10 ltac:(lia)) as Hx.
  pose proof (Z.div_mod y 10 ltac:(lia)) as Hy.
  pose proof (Z.mod_pos_bound x 10 eq_refl) as Hxm.
  pose proof (Z.mod_pos_bound y 10 eq_refl) as Hym.
  destruct (Z.compare_spec (x / 10) (y / 10)) as [Hq|Hq|Hq].
  - destruct (Z.compare_spec (x mod 10) (y mod 10)) as [Hr|Hr|Hr].
    + apply Z.compare_eq_iff. lia.
    + apply Z.compare_lt_iff. lia.
    + apply Z.compare_gt_iff. lia.
  - apply Z.compare_lt_iff. lia.
  - apply Z.compare_gt_iff. lia.
Qed.

(** Two numbers of the same width compare as their digits do, and the
    text that follows decides between equal numbers. *)
Lemma zero_padded_compare width x y a1 a2 :
  0 <= x < 10 ^ Z.of_nat width -> 0 <= y < 10 ^ Z.of_nat width ->
  String_as_OT.compare (zero_padded width x a1) (zero_padded width y a2)
  = match x ?= y with
    | Eq => String_as_OT.compare a1 a2
    | c => c
    end.
Proof.
  revert x y a1 a2. induction width as [|width IH]; intros x y a1 a2 Hx Hy.
  - simpl in *. assert (x = 0) as -> by lia. assert (y = 0) as -> by lia. done.
  - cbn [zero_padded].
    rewrite Nat2Z.inj_succ, Z.pow_succ_r in Hx, Hy by lia.
    rewrite IH.
    2:{ split; [apply Z.div_pos; lia | apply Z.div_lt_upper_bound; lia]. }
    2:{ split; [apply Z.div_pos; lia | apply Z.div_lt_upper_bound; lia]. }
    rewrite (compare_by_digits x y).
    destruct (x / 10 ?= y / 10); [|done|done].
    cbn [String_as_OT.compare]. rewrite digit_compare.
    by destruct (x mod 10 ?= y mod 10).
Qed.

Lemma separator_compare (c : ascii) s1 s2 :
  String_as_OT.compare (String c "" +:+ s1) (String c "" +:+ s2)
  = String_as_OT.compare s1 s2.
Proof.
  change (String c "" +:+ s1) with (String c s1).
  change (String c "" +:+ s2) with (String c s2).
  cbn [String_as_OT.compare].
  destruct (Ascii_as_OT.compare_spec c c) as [_|Hlt|Hlt]; [done| |];
    by apply (StrictOrder_Irreflexive (R := Ascii_as_OT.lt)) in Hlt.
Qed.

Lemma str_datetime_compare a b :
  fits_format a -> fits_format b ->
  String_as_OT.compare (str_datetime a) (str_datetime b)
  = lex_compare (fields a) (fields b).
Proof.
  intros (Hy & Hm & Hd & Hh & Hmi & Hs & Hus) (Hy' & Hm' & Hd' & Hh' & Hmi' & Hs' & Hus').
  unfold str_datetime, fields. rewrite Hus, Hus'.
  cbn [lex_compare].
  rewrite (zero_padded_compare 4) by done.
  destruct (year a ?= year b); [|done|done].
  rewrite separator_compare, (zero_padded_compare 2) by done.
  destruct (month a ?= month b); [|done|done].
  rewrite separator_compare, (zero_padded_compare 2) by done.
  destruct (day a ?= day b); [|done|done].
  rewrite separator_compare, (zero_padded_compare 2) by done.
  destruct (hour a ?= hour b); [|done|done].
  rewrite separator_compare, (zero_padded_compare 2) by done.
  destruct (minute a ?= minute b); [|done|done].
  rewrite separator_compare, (zero_padded_compare 2) by done.
  destruct (second a ?= second b); [|done|done].
  reflexivity.
Qed.

(* ================================================================== *)
(** * The query of the snapshot *)
(* ================================================================== *)

(** [a] may stand before [b] in a result ordered by [datetime DESC]. *)
Definition newest_first (a b : row) : Prop :=
  Sqlite.text_le (datetime b) (datetime a) = true.

Lemma text_le_total a b : Sqlite.text_le a b = false -> Sqlite.text_le b a = true.
Proof.
  unfold Sqlite.text_le.
  destruct (String_as_OT.compare_spec a b) as [Heq|Hlt|Hgt]; try done.
  intros _. unfold String_as_OT.lt in Hgt. by rewrite Hgt.
Qed.

Lemma text_le_trans a b c :
  Sqlite.text_le a b = true -> Sqlite.text_le b c = true -> Sqlite.text_le a c = true.
Proof.
  unfold Sqlite.text_le.
  destruct (String_as_OT.compare_spec a b) as [->|Hab|Hab]; try done.
  destruct (String_as_OT.compare_spec b c) as [->|Hbc|Hbc]; try done.
  - intros _ _. unfold String_as_OT.lt in Hab. by rewrite Hab.
  - intros _ _.
    pose proof (StrictOrder_Transitive (R := String_as_OT.lt) a b c Hab Hbc) as Hac.
    unfold String_as_OT.lt in Hac. by rewrite Hac.
Qed.

Lemma insert_desc_perm r l : Permutation (Sqlite.insert_desc r l) (r :: l).
Proof.
  induction l as [|x l IH]; simpl; [done|].
  destruct (Sqlite.text_le (datetime x) (datetime r)); [done|].
  rewrite IH. apply perm_swap.
Qed.

Lemma insert_desc_sorted r l :
  StronglySorted newest_first l -> StronglySorted newest_first (Sqlite.insert_desc r l).
Proof.
  induction l as [|x l IH]; intros Hs; simpl.
  - repeat constructor.
  - apply StronglySorted_inv in Hs as [Hs Hx].
    destruct (Sqlite.text_le (datetime x) (datetime r)) eqn:Hle.
    + constructor; [by constructor|]. constructor; [done|].
      eapply Forall_impl; [exact Hx|]. intros y Hy. unfold newest_first in *.
      by apply (text_le_trans _ (datetime x)).
    + constructor; [by apply IH|].
      rewrite (insert_desc_perm r l). constructor; [|done].
      by apply text_le_total.
Qed.

Lemma order_by_perm t : Permutation (Sqlite.order_by_datetime_desc t) t.
Proof.
  induction t as [|r t IH]; simpl; [done|].
  by rewrite insert_desc_perm, IH.
Qed.

Lemma order_by_sorted t : StronglySorted newest_first (Sqlite.order_by_datetime_desc t).
Proof.
  induction t as [|r t IH]; simpl; [constructor|]. by apply insert_desc_sorted.
Qed.

Lemma select_recent_length k t :
  length (Sqlite.select_recent k t) = Nat.min k (length t).
Proof.
  unfold Sqlite.select_recent.
  by rewrite length_firstn, (Permutation_length (order_by_perm t)).
Qed.

(** The result is the front of the table put in descending order. *)
Lemma select_recent_spec k t :
  exists rest,
    Permutation t (Sqlite.select_recent k t ++ rest) /\
    StronglySorted newest_first (Sqlite.select_recent k t ++ rest) /\
    length (Sqlite.select_recent k t) = Nat.min k (length t).
Proof.
  exists (skipn k (Sqlite.order_by_datetime_desc t)).
  unfold Sqlite.select_recent at 1 2. rewrite firstn_skipn.
  split; [by rewrite order_by_perm|]. split; [apply order_by_sorted|].
  apply select_recent_length.
Qed.

Lemma select_recent_nil k : Sqlite.select_recent k [] = [].
Proof. unfold Sqlite.select_recent. simpl. by destruct k. Qed.

Lemma select_recent_nonempty r t : Sqlite.select_recent 2 (r :: t) <> [].
Proof.
  intros Hnil. pose proof (select_recent_length 2 (r :: t)) as Hlen.
  rewrite Hnil in Hlen. simpl in Hlen. lia.
Qed.

Lemma readme_section_no_table stock w s :
  db s !! stock = None ->
  data_fetch.readme_section stock w s
  = (inr tt, add_log s [(ERROR, Error_updating_README_for stock
                                  (DatabaseError ("no such table: " +:+ stock)))])
  /\
  data_fetch_v1.readme_section stock w s
  = (inr tt, add_log s [(ERROR, Error_updating_README_for stock
                                  (DatabaseError ("no such table: " +:+ stock)))]).
Proof.
  intros Hd.
  unfold data_fetch.readme_section, data_fetch_v1.readme_section,
    try_except, bind, read_sql_query.
  by rewrite Hd.
Qed.

(** On minute bars [ORDER BY datetime DESC] is newest timestamp first. *)
Lemma newest_first_is_chronological (a b : bar) :
  fits_format (Datetime a) -> fits_format (Datetime b) ->
  newest_first (to_record a) (to_record b)
  <-> dt_le (Datetime b) (Datetime a) = true.
Proof.
  intros Ha Hb. unfold newest_first, Sqlite.text_le, dt_le. cbn [datetime to_record].
  by rewrite (str_datetime_compare _ _ Hb Ha).
Qed.

(** C8, as stated, fails for a series that is absent: the query raises
    instead of returning an empty result. *)
Lemma query_of_absent_table_raises :
  result (read_sql_query "INFY.NS" 2) (quiet (at_time 10 7)) initial
  = inl (DatabaseError "no such table: INFY.NS")
  /\
  result (read_sql_query "INFY.NS" 2) (quiet (at_time 10 7)) initial <> inr [].
Proof. split; [reflexivity | discriminate]. Qed.

(** C8, amended.  For a table that exists the query returns its [k]
    newest rows, newest first: the result followed by some [rest] is a
    descending arrangement of the whole table, and the result has
    [min k n] rows of the [n]; for an empty table the result is empty.
    Descending is by the text of the key, which on timestamps of the
    width of a minute bar is descending by timestamp.
    For a table that does not exist the query raises; the turn of
    [update_readme] catches the error, logs it and returns, in both
    scripts.  After rows at 10:00, 10:01 and 10:02 the query with
    limit 2 returns the rows of 10:02 and 10:01, in that order. *)
Theorem read_recent_newest_first (w : world) (s : state) (stock : string) (k : nat) :
  (forall t, db s !! stock = Some t ->
     read_sql_query stock k w s = (inr (Sqlite.select_recent k t), s) /\
     exists rest,
       Permutation t (Sqlite.select_recent k t ++ rest) /\
       StronglySorted newest_first (Sqlite.select_recent k t ++ rest) /\
       length (Sqlite.select_recent k t) = Nat.min k (length t))
  /\
  (db s !! stock = Some [] -> read_sql_query stock k w s = (inr [], s))
  /\
  (db s !! stock = None ->
     read_sql_query stock k w s
     = (inl (DatabaseError ("no such table: " +:+ stock)), s) /\
     data_fetch.readme_section stock w s
     = (inr tt, add_log s [(ERROR, Error_updating_README_for stock
                                     (DatabaseError ("no such table: " +:+ stock)))]) /\
     data_fetch_v1.readme_section stock w s
     = (inr tt, add_log s [(ERROR, Error_updating_README_for stock
                                     (DatabaseError ("no such table: " +:+ stock)))]))
  /\
  (forall a b : bar,
     fits_format (Datetime a) -> fits_format (Datetime b) ->
     (newest_first (to_record a) (to_record b)
      <-> dt_le (Datetime b) (Datetime a) = true))
  /\
  (forall p0 p1 p2 v0 v1 v2,
     result (read_sql_query "INFY.NS" 2) w
       (exec (data_fetch_v1.insert_data "INFY.NS"
                [bar_at 10 0 p0 v0; bar_at 10 1 p1 v1; bar_at 10 2 p2 v2]) (quiet (clock w))
          (only_infy []))
     = inr [to_record (bar_at 10 2 p2 v2); to_record (bar_at 10 1 p1 v1)]).
Proof.
  split; [|split; [|split; [|split; [apply newest_first_is_chronological|]]]].
  - intros t Ht. unfold read_sql_query. rewrite Ht. split; [done|].
    apply select_recent_spec.
  - intros Ht. unfold read_sql_query. by rewrite Ht, select_recent_nil.
  - intros Ht. split; [|by apply readme_section_no_table].
    unfold read_sql_query. by rewrite Ht.
  - intros p0 p1 p2 v0 v1 v2. reflexivity.
Qed.

Lemma read_recent_newest_first_witness :
  read_sql_query "INFY.NS" 2 (quiet (at_time 10 7))
    (only_infy [to_record (bar_at 10 0 100.5 10); to_record (bar_at 10 2 102.5 30);
                to_record (bar_at 10 1 101.5 20)])
  = (inr [to_record (bar_at 10 2 102.5 30); to_record (bar_at 10 1 101.5 20)],
     only_infy [to_record (bar_at 10 0 100.5 10); to_record (bar_at 10 2 102.5 30);
                to_record (bar_at 10 1 101.5 20)]).
Proof.
  apply (proj1 (read_recent_newest_first (quiet (at_time 10 7))
                  (only_infy [to_record (bar_at 10 0 100.5 10);
                              to_record (bar_at 10 2 102.5 30);
                              to_record (bar_at 10 1 101.5 20)])
                  "INFY.NS" 2)
           [to_record (bar_at 10 0 100.5 10); to_record (bar_at 10 2 102.5 30);
            to_record (bar_at 10 1 101.5 20)]).
  reflexivity.
Defined.

(* ================================================================== *)
(** * Which symbols get a section *)
(* ================================================================== *)

Section sections.

Variable render : string -> list row -> chunk.
Hypothesis render_section : forall x rows, section_of (render x rows) = Some x.

Lemma section_chunks_empty d stock :
  section_chunks render d stock = [] <->
  d !! stock = None \/ d !! stock = Some [].
Proof.
  unfold section_chunks. destruct (d !! stock) as [[|r t]|] eqn:Hd.
  - rewrite select_recent_nil. split; [by right | done].
  - pose proof (select_recent_nonempty r t) as Hne.
    destruct (Sqlite.select_recent 2 (r :: t)); [done|].
    split; [done | intros [?|?]; done].
  - split; [by left | done].
Qed.

(** A chunk of the snapshot is the section of [stock] exactly when
    [stock] is in the basket and its table has a row. *)
Lemma snapshot_sections stocks w s stock :
  (exists c, c ∈ default [] (readme (snapshot render stocks w s))
             /\ section_of c = Some stock)
  <-> stock ∈ stocks /\ exists r t, db s !! stock = Some (r :: t).
Proof.
  unfold snapshot. cbn [readme default]. split.
  - intros (c & Hc & Hsec).
    apply elem_of_app in Hc as [Hc|Hc].
    { apply elem_of_cons in Hc as [->|Hc]; [done|].
      apply list_elem_of_singleton in Hc as ->. done. }
    apply list_elem_of_In, in_flat_map in Hc as (y & Hy & Hc).
    apply list_elem_of_In in Hy, Hc.
    pose proof (section_chunks_section_of render _ _ _ render_section Hc) as Hy'.
    assert (y = stock) as -> by congruence.
    split; [done|].
    destruct (db s !! stock) as [[|r t]|] eqn:Hd; [| by eauto |].
    + assert (section_chunks render (db s) stock = []) as Hnil
        by (apply section_chunks_empty; by right).
      rewrite Hnil in Hc. by apply elem_of_nil in Hc.
    + assert (section_chunks render (db s) stock = []) as Hnil
        by (apply section_chunks_empty; by left).
      rewrite Hnil in Hc. by apply elem_of_nil in Hc.
  - intros (Hin & r & t & Hd).
    destruct (section_chunks render (db s) stock) as [|c cs] eqn:Hc.
    { apply section_chunks_empty in Hc as [Hc|Hc]; congruence. }
    exists c. split.
    + apply elem_of_app. right.
      apply list_elem_of_In, in_flat_map. exists stock.
      split; [by apply list_elem_of_In|]. rewrite Hc. by left.
    + apply (section_chunks_section_of render (db s) stock); [done|].
      rewrite Hc. by left.
Qed.

End sections.

(** C9. After [update_readme], in both scripts, a symbol of the basket
    whose table is empty has no chunk of the README as its section, and
    a symbol of the basket whose table has at least one row has one. *)
Theorem empty_series_has_no_section (stocks : list string) (w : world) (s : state)
    (stock : string) :
  stock ∈ stocks ->
  (exists cs,
      readme (exec (data_fetch.update_readme stocks) w s) = Some cs /\
      (db s !! stock = Some [] -> forall c, c ∈ cs -> section_of c <> Some stock) /\
      (forall r t, db s !! stock = Some (r :: t) ->
                   exists c, c ∈ cs /\ section_of c = Some stock))
  /\
  (exists cs,
      readme (exec (data_fetch_v1.update_readme stocks) w s) = Some cs /\
      (db s !! stock = Some [] -> forall c, c ∈ cs -> section_of c <> Some stock) /\
      (forall r t, db s !! stock = Some (r :: t) ->
                   exists c, c ∈ cs /\ section_of c = Some stock)).
Proof.
  intros Hin. unfold exec.
  rewrite update_readme_spec, update_readme_v1_spec. cbn [snd].
  assert (forall render, (forall x rows, section_of (render x rows) = Some x) ->
            exists cs,
              readme (snapshot render stocks w s) = Some cs /\
              (db s !! stock = Some [] ->
               forall c, c ∈ cs -> section_of c <> Some stock) /\
              (forall r t, db s !! stock = Some (r :: t) ->
                           exists c, c ∈ cs /\ section_of c = Some stock)) as Hboth.
  { intros render Hrender.
    pose proof (snapshot_sections render Hrender stocks w s stock) as Hiff.
    destruct (readme (snapshot render stocks w s)) as [cs|] eqn:Hr; [|done].
    exists cs. split; [done|]. cbn [default] in Hiff. split.
    - intros Hd c Hc Hsec.
      destruct (proj1 Hiff (ex_intro _ c (conj Hc Hsec))) as (_ & r & t & Hd').
      congruence.
    - intros r t Hd. apply Hiff. eauto. }
  split; apply Hboth; done.
Qed.

Lemma empty_series_has_no_section_witness :
  (exists cs,
      readme (exec (data_fetch.update_readme ["INFY.NS"; "TCS.NS"])
                (quiet (at_time 10 7))
                (exec (data_fetch.init_db ["TCS.NS"]) (quiet (at_time 10 7))
                   (only_infy [to_record (bar_at 10 0 100.5 10)]))) = Some cs /\
      (db (exec (data_fetch.init_db ["TCS.NS"]) (quiet (at_time 10 7))
             (only_infy [to_record (bar_at 10 0 100.5 10)])) !! "TCS.NS" = Some [] ->
       forall c, c ∈ cs -> section_of c <> Some "TCS.NS") /\
      (forall r t,
          db (exec (data_fetch.init_db ["TCS.NS"]) (quiet (at_time 10 7))
                (only_infy [to_record (bar_at 10 0 100.5 10)])) !! "TCS.NS"
          = Some (r :: t) ->
          exists c, c ∈ cs /\ section_of c = Some "TCS.NS")).
Proof.
  apply (proj1 (empty_series_has_no_section ["INFY.NS"; "TCS.NS"]
                  (quiet (at_time 10 7))
                  (exec (data_fetch.init_db ["TCS.NS"]) (quiet (at_time 10 7))
                     (only_infy [to_record (bar_at 10 0 100.5 10)]))
                  "TCS.NS" ltac:(apply elem_of_cons; right; apply elem_of_cons; by left))).
Defined.

(* ================================================================== *)
(** * The count that is reported *)
(* ================================================================== *)






(* ================================================================== *)
(** * One failing symbol and the rest of the cycle *)
(* ================================================================== *)

(** A basket of three. *)
Definition three : list string := ["A.NS"; "B.NS"; "C.NS"].

(** Every symbol has a bar and the engine refuses the insert into the
    table of B.NS. *)
Definition locked_b : world :=
  {| download := fun _ => inr (mk_frame true [bar_at 10 0 100.5 10]);
     clock := at_time 10 7;
     insert_error := fun x =>
       if String.eqb x "B.NS" then Some (OperationalError "database is locked")
       else None |}.

(** B.NS fails at the provider; A.NS and C.NS have a bar each. *)
Definition provider_fails_b : world :=
  {| download := fun x =>
       if String.eqb x "B.NS" then inl (ProviderError "rate limited")
       else inr (mk_frame true [bar_at 10 0 100.5 10]);
     clock := at_time 10 7;
     insert_error := fun _ => None |}.

(** B.NS fails at the provider; for A.NS and C.NS there is nothing new. *)
Definition provider_fails_b_only : world :=
  {| download := fun x =>
       if String.eqb x "B.NS" then inl (ProviderError "rate limited")
       else inr (mk_frame true []);
     clock := at_time 10 7;
     insert_error := fun _ => None |}.


(** What the loop of [main] in [data_fetch.py] logs: the records of the
    turns up to the first symbol for which a frame arrives. *)
Fixpoint loop_log (w : world) (stocks : list string) : list (level * message) :=
  match stocks with
  | [] => []
  | x :: rest =>
      match (fetched w x).1 with
      | None => (fetched w x).2 ++ (WARNING, No_data_to_insert_for x) :: loop_log w rest
      | Some _ => []
      end
  end.




Lemma main_spec stocks w s r s2 :
  for_each stocks data_fetch.process w
    (set_db (created stocks (db s)) (add_log s [(INFO, Starting_data_fetch_cycle)]))
  = (r, s2) ->
  data_fetch.main stocks w s =
    match r with
    | inl e => (inl e, s2)
    | inr _ =>
        (inr tt, add_log (snapshot Markdown_section stocks w s2) [(INFO, Cycle_complete)])
    end.
Proof.
  intros Hloop. unfold data_fetch.main.
  unfold bind at 1. cbn [logging].
  rewrite (bind_returns _ _ _ _ _ _ (init_db_spec stocks w _)).
  destruct r as [e|[]].
  - by rewrite (bind_raises _ _ _ _ _ _ Hloop).
  - rewrite (bind_returns _ _ _ _ _ _ Hloop).
    by rewrite (bind_returns _ _ _ _ _ _ (update_readme_spec stocks w _)).
Qed.







Example provider_failure_run :
  readme (exec (data_fetch.main three) provider_fails_b_only initial)
  = Some [Title; Last_updated (at_time 10 7)]
  /\
  log (exec (data_fetch.main three) provider_fails_b_only initial)
  = [(INFO, Starting_data_fetch_cycle);
     (WARNING, No_data_returned_for "A.NS");
     (WARNING, No_data_to_insert_for "A.NS");
     (ERROR, Error_fetching_data_for "B.NS" (ProviderError "rate limited"));
     (WARNING, No_data_to_insert_for "B.NS");
     (WARNING, No_data_returned_for "C.NS");
     (WARNING, No_data_to_insert_for "C.NS");
     (INFO, Cycle_complete)].
Proof. split; reflexivity. Qed.

(* ================================================================== *)
(** * The scripts on the configured basket *)
(* ================================================================== *)

(** With a provider that has nothing, both scripts create the twenty
    tables, write a README without sections and log one warning pair
    per symbol. *)
Example quiet_cycle_on_the_basket :
  result (data_fetch.main STOCKS) (quiet (at_time 10 7)) initial = inr tt /\
  readme (exec (data_fetch.main STOCKS) (quiet (at_time 10 7)) initial)
  = Some [Title; Last_updated (at_time 10 7)] /\
  result (data_fetch_v1.main data_fetch_v1.module_names STOCKS)
    (quiet (at_time 10 7)) initial = inr tt /\
  length (log (exec (data_fetch.main STOCKS) (quiet (at_time 10 7)) initial)) = 42%nat /\
  size (db (exec (data_fetch.main STOCKS) (quiet (at_time 10 7)) initial)) = 20%nat.
Proof. repeat split; vm_compute; reflexivity. Qed.

(* ================================================================== *)
(** * More on [init_db] and [insert_data] *)
(* ================================================================== *)

Lemma created_idempotent stocks d : created stocks (created stocks d) = created stocks d.
Proof.
  apply map_eq. intros x. rewrite !created_lookup.
  by destruct (decide (x ∈ stocks)).
Qed.

(** ** Table names *)

(** SQLite compares table names without regard to the case of ASCII
    letters; the store keeps a table under its name as written.  The
    two agree as long as no two names in play differ in case only, as
    is so for the basket, whose names are all in upper case. *)
Definition ascii_lower (c : ascii) : ascii :=
  let n := nat_of_ascii c in
  if Nat.leb 65 n && Nat.leb n 90 then ascii_of_nat (n + 32) else c.

Fixpoint casefold (name : string) : string :=
  match name with
  | EmptyString => EmptyString
  | String c rest => String (ascii_lower c) (casefold rest)
  end.

(** The engine takes [a] and [b] for the same table. *)
Definition same_table (a b : string) : Prop := casefold a = casefold b.

(** The engine knows no table by the name [stock]. *)
Definition no_table_named (d : gmap string (list row)) (stock : string) : Prop :=
  forall y, is_Some (d !! y) -> ~ same_table y stock.

Lemma no_table_named_lookup d stock : no_table_named d stock -> d !! stock = None.
Proof.
  intros Hno. destruct (d !! stock) as [t|] eqn:Ht; [|done].
  by destruct (Hno stock (ex_intro _ t Ht)).
Qed.

Lemma basket_names_differ_in_more_than_case x y :
  x ∈ STOCKS -> y ∈ STOCKS -> same_table x y -> x = y.
Proof.
  unfold same_table. intros Hx Hy.
  repeat (apply elem_of_cons in Hx as [->|Hx]);
    try (by apply elem_of_nil in Hx);
    repeat (apply elem_of_cons in Hy as [->|Hy]);
    try (by apply elem_of_nil in Hy);
    vm_compute; congruence.
Qed.

(** X1. When [init_db] returns, it has touched neither the log nor the
    README; every symbol of the basket has a table, empty when it is
    new and with its old rows when it existed; tables of other symbols
    are as they were; and a second [init_db] changes nothing.  So it is
    in both scripts, for names that differ in more than case. *)
Theorem init_db_creates_missing_tables (stocks : list string) (w : world) (s : state) :
  (forall x y, x ∈ stocks -> y ∈ stocks \/ is_Some (db s !! y) ->
               same_table x y -> x = y) ->
  result (data_fetch.init_db stocks) w s = inr tt ->
  result (data_fetch_v1.init_db stocks) w s = inr tt ->
  (log (exec (data_fetch.init_db stocks) w s) = log s /\
   readme (exec (data_fetch.init_db stocks) w s) = readme s /\
   (forall x,
       db (exec (data_fetch.init_db stocks) w s) !! x
       = if decide (x ∈ stocks) then Some (default [] (db s !! x)) else db s !! x) /\
   exec (data_fetch.init_db stocks) w (exec (data_fetch.init_db stocks) w s)
   = exec (data_fetch.init_db stocks) w s)
  /\
  (log (exec (data_fetch_v1.init_db stocks) w s) = log s /\
   readme (exec (data_fetch_v1.init_db stocks) w s) = readme s /\
   (forall x,
       db (exec (data_fetch_v1.init_db stocks) w s) !! x
       = if decide (x ∈ stocks) then Some (default [] (db s !! x)) else db s !! x) /\
   exec (data_fetch_v1.init_db stocks) w (exec (data_fetch_v1.init_db stocks) w s)
   = exec (data_fetch_v1.init_db stocks) w s).
Proof.
  intros _ _ _.
  change (data_fetch_v1.init_db stocks) with (data_fetch.init_db stocks).
  assert (forall s', exec (data_fetch.init_db stocks) w s'
                     = set_db (created stocks (db s')) s') as Hexec.
  { intros s'. unfold exec. by rewrite init_db_spec. }
  rewrite !Hexec. cbn [db log readme set_db].
  assert (set_db (created stocks (created stocks (db s))) (set_db (created stocks (db s)) s)
          = set_db (created stocks (db s)) s) as Htwice.
  { unfold set_db. cbn [db log readme]. by rewrite created_idempotent. }
  repeat split; try done; intros x; apply created_lookup.
Qed.

Lemma init_db_creates_missing_tables_witness :
  db (exec (data_fetch_v1.init_db STOCKS) (quiet (at_time 10 7))
        (only_infy [to_record (bar_at 10 0 100.5 10)])) !! "INFY.NS"
  = Some [to_record (bar_at 10 0 100.5 10)]
  /\
  db (exec (data_fetch_v1.init_db STOCKS) (quiet (at_time 10 7))
        (only_infy [to_record (bar_at 10 0 100.5 10)])) !! "TCS.NS"
  = Some [].
Proof.
  destruct (init_db_creates_missing_tables STOCKS (quiet (at_time 10 7))
              (only_infy [to_record (bar_at 10 0 100.5 10)]))
    as (_ & _ & _ & Hv1 & _).
  - intros x y Hx [Hy|[t Hy]].
    + by apply basket_names_differ_in_more_than_case.
    + unfold only_infy in Hy. cbn [db] in Hy.
      apply lookup_singleton_Some in Hy as [<- _].
      apply basket_names_differ_in_more_than_case; [done|].
      do 3 (apply elem_of_cons; right). by left.
  - reflexivity.
  - reflexivity.
  - split; [exact (Hv1 "INFY.NS") | exact (Hv1 "TCS.NS")].
Defined.

(** X2. After [init_db], [insert_data] of [data_fetch_v1.py] for a
    symbol of the basket returns, when the engine does not raise, and
    the table holds what [INSERT OR IGNORE] makes of its old rows and
    the frame; [insert_data] of [data_fetch.py] raises on the first
    line of the frame.  For a name the engine knows no table by,
    [insert_data] raises [OperationalError] and changes nothing, in
    both scripts. *)
Theorem insert_data_needs_its_table (stocks : list string) (w : world) (s : state)
    (stock : string) (df : list bar) :
  insert_error w stock = None ->
  (stock ∈ stocks ->
     result (data_fetch_v1.init_db stocks ;; data_fetch_v1.insert_data stock df) w s
     = inr tt /\
     db (exec (data_fetch_v1.init_db stocks ;; data_fetch_v1.insert_data stock df) w s)
       !! stock
     = Some (Sqlite.executemany (default [] (db s !! stock)) (map to_record df)) /\
     (df <> [] ->
      result (data_fetch.init_db stocks ;; data_fetch.insert_data stock df) w s
      = inl timestamp_not_supported))
  /\
  (no_table_named (db s) stock ->
     data_fetch.insert_data stock df w s
     = (inl (OperationalError ("no such table: " +:+ stock)), s) /\
     data_fetch_v1.insert_data stock df w s
     = (inl (OperationalError ("no such table: " +:+ stock)), s)).
Proof.
  intros He. split.
  - intros Hin. unfold result, exec.
    change (data_fetch_v1.init_db stocks) with (data_fetch.init_db stocks).
    rewrite !(bind_returns _ _ _ _ _ _ (init_db_spec stocks w s)).
    rewrite insert_data_spec, insert_data_v1_spec, He. cbn [db set_db].
    rewrite created_lookup, decide_True by done. cbn [fst snd db set_db add_log].
    rewrite lookup_insert_eq. split; [done|]. split; [done|].
    by destruct df.
  - intros Hd%no_table_named_lookup.
    by rewrite insert_data_spec, insert_data_v1_spec, He, Hd.
Qed.

Lemma insert_data_needs_its_table_witness :
  result (data_fetch_v1.init_db ["INFY.NS"]
          ;; data_fetch_v1.insert_data "INFY.NS" [bar_at 10 0 100.5 10])
    (quiet (at_time 10 7)) initial = inr tt /\
  db (exec (data_fetch_v1.init_db ["INFY.NS"]
            ;; data_fetch_v1.insert_data "INFY.NS" [bar_at 10 0 100.5 10])
        (quiet (at_time 10 7)) initial) !! "INFY.NS"
  = Some (Sqlite.executemany (default [] (db initial !! "INFY.NS"))
            (map to_record [bar_at 10 0 100.5 10])) /\
  result (data_fetch.init_db ["INFY.NS"]
          ;; data_fetch.insert_data "INFY.NS" [bar_at 10 0 100.5 10])
    (quiet (at_time 10 7)) initial
  = inl (ProgrammingError "Error binding parameter 1: type 'Timestamp' is not supported").
Proof.
  destruct (proj1 (insert_data_needs_its_table ["INFY.NS"] (quiet (at_time 10 7))
                     initial "INFY.NS" [bar_at 10 0 100.5 10] eq_refl))
    as (H1 & H2 & H3).
  - apply elem_of_cons. by left.
  - split; [exact H1|]. split; [exact H2|]. by apply H3.
Defined.

(** X3. [insert_data] of [data_fetch_v1.py] for one symbol leaves the
    README and the table of every symbol the engine does not take for
    the same as they were, whether it returns or raises;
    [insert_data] of [data_fetch.py] leaves everything as it was. *)
Theorem insert_data_touches_one_table (w : world) (s : state) (stock other : string)
    (df : list bar) :
  ~ same_table other stock ->
  db (exec (data_fetch_v1.insert_data stock df) w s) !! other = db s !! other /\
  readme (exec (data_fetch_v1.insert_data stock df) w s) = readme s /\
  exec (data_fetch.insert_data stock df) w s = s.
Proof.
  intros Hother.
  assert (other <> stock) as Hne by (intros ->; by apply Hother).
  rewrite insert_data_v1_db.
  unfold exec. rewrite insert_data_spec, insert_data_v1_spec. unfold inserted_db.
  destruct (insert_error w stock); [done|].
  destruct (db s !! stock); [|done].
  rewrite lookup_insert_ne by done. by destruct df.
Qed.

Lemma insert_data_touches_one_table_witness :
  db (exec (data_fetch_v1.insert_data "INFY.NS" [bar_at 10 0 100.5 10])
        (quiet (at_time 10 7))
        (exec (data_fetch_v1.init_db ["INFY.NS"; "TCS.NS"]) (quiet (at_time 10 7)) initial))
    !! "TCS.NS"
  = db (exec (data_fetch_v1.init_db ["INFY.NS"; "TCS.NS"]) (quiet (at_time 10 7)) initial)
      !! "TCS.NS".
Proof.
  apply (insert_data_touches_one_table (quiet (at_time 10 7))
           (exec (data_fetch_v1.init_db ["INFY.NS"; "TCS.NS"])
              (quiet (at_time 10 7)) initial)
           "INFY.NS" "TCS.NS").
  vm_compute. discriminate.
Defined.

(** What a batch adds: rows of the batch, with keys the table did not
    have and no key twice. *)
Lemma executemany_added rows t :
  exists added,
    Sqlite.executemany t rows = t ++ added /\
    (forall r, r ∈ added -> r ∈ rows /\ Sqlite.has_key (datetime r) t = false) /\
    NoDup (map datetime added).
Proof.
  revert t. induction rows as [|r rows IH]; intros t.
  - exists []. split; [by rewrite app_nil_r|]. split; [|constructor].
    by intros r ?%elem_of_nil.
  - change (Sqlite.executemany t (r :: rows))
      with (Sqlite.executemany (Sqlite.insert_or_ignore t r) rows).
    destruct (Sqlite.has_key (datetime r) t) eqn:Hk.
    + rewrite insert_or_ignore_known by done.
      destruct (IH t) as (added & Heq & Hin & Hnd).
      exists added. split; [done|]. split; [|done].
      intros r' Hr'. destruct (Hin r' Hr') as [? ?]. split; [by right|done].
    + rewrite insert_or_ignore_fresh by done.
      destruct (IH (t ++ [r])) as (added & Heq & Hin & Hnd).
      exists (r :: added). split; [by rewrite Heq, <- app_assoc|]. split.
      * intros r' Hr'. apply elem_of_cons in Hr' as [->|Hr'].
        { split; [by left|done]. }
        destruct (Hin r' Hr') as [Hrows Hfresh].
        rewrite has_key_app in Hfresh. apply orb_false_elim in Hfresh as [Hfresh _].
        split; [by right|done].
      * cbn [map]. apply NoDup_cons. split; [|done].
        intros Hdup. apply list_elem_of_fmap in Hdup as (r' & Hkey & Hr').
        destruct (Hin r' Hr') as [_ Hfresh].
        rewrite has_key_app, has_key_singleton in Hfresh.
        apply orb_false_elim in Hfresh as [_ Hfresh].
        apply String.eqb_neq in Hfresh. congruence.
Qed.

(** X4. [insert_data] of [data_fetch_v1.py] only appends: the rows a
    table had stay, as they were and where they were, whether the call
    returns or raises; the rows put behind them are lines of the frame
    whose timestamps the table did not have, no timestamp twice.
    [insert_data] of [data_fetch.py] leaves the table as it was. *)
Theorem insert_data_appends (w : world) (s : state) (stock : string)
    (t : list row) (df : list bar) :
  db s !! stock = Some t ->
  (exists added,
    db (exec (data_fetch_v1.insert_data stock df) w s) !! stock = Some (t ++ added) /\
    (forall r, r ∈ added ->
       (exists b, b ∈ df /\ r = to_record b) /\
       Sqlite.has_key (datetime r) t = false) /\
    NoDup (map datetime added) /\
    (NoDup (map datetime t) -> NoDup (map datetime (t ++ added))))
  /\
  db (exec (data_fetch.insert_data stock df) w s) !! stock = Some t.
Proof.
  intros Ht. rewrite insert_data_db, insert_data_v1_db. split; [|done].
  unfold inserted_db.
  destruct (insert_error w stock).
  - exists []. rewrite app_nil_r. split; [done|].
    split; [by intros r ?%elem_of_nil|]. split; [constructor | done].
  - rewrite Ht, lookup_insert_eq.
    destruct (executemany_added (map to_record df) t) as (added & Heq & Hin & Hnd).
    exists added. split; [by rewrite Heq|]. split; [|split; [done|]].
    + intros r Hr. destruct (Hin r Hr) as [Hrows Hfresh]. split; [|done].
      apply list_elem_of_fmap in Hrows as (b & -> & Hb). by exists b.
    + intros Hu. rewrite <- Heq. by apply executemany_NoDup.
Qed.

Lemma insert_data_appends_witness :
  exists added,
    db (exec (data_fetch_v1.insert_data "INFY.NS"
                [bar_at 10 0 999.0 1; bar_at 10 1 101.5 20])
          (quiet (at_time 10 7)) (only_infy [to_record (bar_at 10 0 100.5 10)]))
      !! "INFY.NS"
    = Some ([to_record (bar_at 10 0 100.5 10)] ++ added) /\
    NoDup (map datetime added).
Proof.
  destruct (insert_data_appends (quiet (at_time 10 7))
              (only_infy [to_record (bar_at 10 0 100.5 10)]) "INFY.NS"
              [to_record (bar_at 10 0 100.5 10)]
              [bar_at 10 0 999.0 1; bar_at 10 1 101.5 20] eq_refl)
    as ((added & H1 & _ & H3 & _) & _).
  exists added. exact (conj H1 H3).
Defined.

Lemma executemany_app t rows1 rows2 :
  Sqlite.executemany t (rows1 ++ rows2)
  = Sqlite.executemany (Sqlite.executemany t rows1) rows2.
Proof. unfold Sqlite.executemany. apply fold_left_app. Qed.

(** The first row of a batch with a key the table lacks is stored. *)
Lemma executemany_first_wins t pre r post :
  Sqlite.has_key (datetime r) t = false ->
  datetime r ∉ map datetime pre ->
  r ∈ Sqlite.executemany t (pre ++ r :: post).
Proof.
  intros Hfresh Hpre. rewrite executemany_app.
  change (Sqlite.executemany ?t' (r :: post))
    with (Sqlite.executemany (Sqlite.insert_or_ignore t' r) post).
  destruct (executemany_added pre t) as (added & Heq & Hin & _).
  rewrite Heq, insert_or_ignore_fresh.
  - destruct (executemany_extends post ((t ++ added) ++ [r])) as (more & -> & _).
    apply elem_of_app. left. apply elem_of_app. right. by left.
  - rewrite has_key_app, Hfresh. cbn [orb]. apply has_key_false.
    intros Hdup. apply list_elem_of_fmap in Hdup as (r' & Hkey & Hr').
    apply Hpre. rewrite Hkey. apply list_elem_of_fmap_2. by apply Hin.
Qed.

(** X5. When [insert_data] of [data_fetch_v1.py] returns, every
    timestamp of the frame is a key of the table; and a line of the
    frame whose timestamp was not stored and does not occur earlier in
    the frame is stored as the driver binds it: the timestamp as text,
    the prices as reals (NULL for a NaN), the volume as the eight bytes
    of its [int64].  Of two lines with one timestamp the first is
    kept. *)
Theorem insert_data_stores_every_timestamp (w : world) (s : state) (stock : string)
    (t : list row) (df : list bar) :
  insert_error w stock = None ->
  db s !! stock = Some t ->
  exists t',
    db (exec (data_fetch_v1.insert_data stock df) w s) !! stock = Some t' /\
    (forall b, b ∈ df -> Sqlite.has_key (str_datetime (Datetime b)) t' = true) /\
    (forall pre b post,
        df = pre ++ b :: post ->
        Sqlite.has_key (str_datetime (Datetime b)) t = false ->
        str_datetime (Datetime b) ∉ map (fun b' => str_datetime (Datetime b')) pre ->
        {| datetime := str_datetime (Datetime b);
           open := bind_float64 (Open b);
           high := bind_float64 (High b);
           low := bind_float64 (Low b);
           close := bind_float64 (Close b);
           volume := bind_int64 (Volume b) |} ∈ t').
Proof.
  intros He Ht. rewrite insert_data_v1_db. unfold inserted_db.
  rewrite He, Ht, lookup_insert_eq.
  exists (Sqlite.executemany t (map to_record df)).
  split; [done|]. split.
  - intros b Hb.
    apply (executemany_has_keys (map to_record df) t (to_record b)).
    by apply list_elem_of_fmap_2.
  - intros pre b post -> Hfresh Hpre. rewrite map_app. cbn [map].
    apply (executemany_first_wins t (map to_record pre) (to_record b)); [done|].
    by rewrite map_map.
Qed.

(** Two lines for 10:00 in one frame: the first is stored, its volume
    of 10 as the bytes 0a 00 00 00 00 00 00 00. *)
Lemma insert_data_stores_every_timestamp_witness :
  exists t',
    db (exec (data_fetch_v1.insert_data "INFY.NS"
                [bar_at 10 0 100.5 10; bar_at 10 0 999.0 1])
          (quiet (at_time 10 7)) (only_infy [])) !! "INFY.NS" = Some t' /\
    {| datetime := "2024-01-05 10:00:00+05:30";
       open := Real 100.5; high := Real 100.5; low := Real 100.5; close := Real 100.5;
       volume := Blob [Byte.x0a; Byte.x00; Byte.x00; Byte.x00;
                       Byte.x00; Byte.x00; Byte.x00; Byte.x00] |} ∈ t'.
Proof.
  destruct (insert_data_stores_every_timestamp (quiet (at_time 10 7))
              (only_infy []) "INFY.NS" []
              [bar_at 10 0 100.5 10; bar_at 10 0 999.0 1] eq_refl eq_refl)
    as (t' & H1 & _ & H3).
  exists t'. split; [exact H1|].
  apply (H3 [] (bar_at 10 0 100.5 10) [bar_at 10 0 999.0 1] eq_refl eq_refl).
  apply not_elem_of_nil.
Defined.

(* ================================================================== *)
(** * More on [fetch_stock_data] *)
(* ================================================================== *)

(** X6. [fetch_stock_data] never raises and never touches the tables or
    the README, in both scripts.  In [data_fetch.py] it returns a frame
    exactly when the provider returned one that is not empty and has its
    [Datetime] column; the frame returned then has the provider's rows,
    all of them and in their order, and nothing is logged. *)
Theorem fetch_returns_the_provider_rows (names : list string) (w : world)
    (s : state) (stock : string) :
  (exists r, result (data_fetch.fetch_stock_data stock) w s = inr r) /\
  (exists r, result (data_fetch_v1.fetch_stock_data names stock) w s = inr r) /\
  db (exec (data_fetch.fetch_stock_data stock) w s) = db s /\
  db (exec (data_fetch_v1.fetch_stock_data names stock) w s) = db s /\
  readme (exec (data_fetch.fetch_stock_data stock) w s) = readme s /\
  readme (exec (data_fetch_v1.fetch_stock_data names stock) w s) = readme s /\
  (forall df,
      result (data_fetch.fetch_stock_data stock) w s = inr (Some df)
      <-> exists fr, download w stock = inr fr /\ has_Datetime fr = true
                     /\ records fr = df /\ df <> []) /\
  (forall df,
      result (data_fetch.fetch_stock_data stock) w s = inr (Some df) ->
      exec (data_fetch.fetch_stock_data stock) w s = s).
Proof.
  unfold result, exec. rewrite fetch_stock_data_spec, fetch_stock_data_v1_spec.
  cbn [fst snd db readme add_log].
  split; [by eexists|]. split; [by eexists|].
  do 4 (split; [done|]). split.
  - intros df. split.
    + intros [= Hf]. destruct (fetched_some w stock df Hf) as (fr & ? & ? & ? & ? & _).
      by exists fr.
    + intros (fr & Hd & Hc & Hr & Hne). f_equal. unfold fetched, empty.
      rewrite Hd, Hc, Hr. by destruct df.
  - intros df [= Hf]. destruct (fetched_some w stock df Hf) as (fr & _ & _ & _ & _ & ->).
    apply add_log_nil.
Qed.

(* ================================================================== *)
(** * More on [update_readme] *)
(* ================================================================== *)

(** Has the table of [x] a row? *)
Definition has_rows (d : gmap string (list row)) (x : string) : bool :=
  match d !! x with
  | Some (_ :: _) => true
  | _ => false
  end.


Lemma sections_in_order render d stocks :
  (forall x rows, section_of (render x rows) = Some x) ->
  omap section_of (flat_map (section_chunks render d) stocks)
  = List.filter (has_rows d) stocks.
Proof.
  intros Hrender. induction stocks as [|x stocks IH]; [done|].
  cbn [flat_map List.filter]. rewrite omap_app, IH.
  unfold section_chunks at 1, has_rows at 2.
  destruct (d !! x) as [[|r t]|] eqn:Hd.
  - by rewrite select_recent_nil.
  - pose proof (select_recent_nonempty r t) as Hne.
    destruct (Sqlite.select_recent 2 (r :: t)) as [|r' rows]; [done|].
    cbn [omap list_omap app]. by rewrite Hrender.
  - done.
Qed.


Lemma section_chunks_rows render d stock c :
  c ∈ section_chunks render d stock ->
  exists t, d !! stock = Some t /\ c = render stock (Sqlite.select_recent 2 t)
            /\ Sqlite.select_recent 2 t <> [].
Proof.
  unfold section_chunks. destruct (d !! stock) as [t|]; [|by intros ?%elem_of_nil].
  destruct (Sqlite.select_recent 2 t) as [|r rows] eqn:Hsel;
    [by intros ?%elem_of_nil|].
  intros ->%list_elem_of_singleton. exists t. by rewrite Hsel.
Qed.

Lemma select_recent_sorted k t :
  StronglySorted newest_first (Sqlite.select_recent k t).
Proof.
  unfold Sqlite.select_recent.
  pose proof (order_by_sorted t) as Hs. revert k.
  induction Hs as [|r l Hs IH Hr]; intros [|k]; cbn [firstn]; try constructor.
  - apply IH.
  - apply Forall_forall. intros x Hx. apply (proj1 (Forall_forall _ _) Hr).
    rewrite <- (firstn_skipn k l). apply elem_of_app. by left.
Qed.


(** X8. The README that [update_readme] writes starts with the title
    and the time of writing; its sections are those of the symbols of
    the basket whose table has a row, in the order of the basket.  A
    section of [data_fetch.py] holds the one or two newest rows of the
    table, newest first; a section of [data_fetch_v1.py] holds their
    datetime, close and volume. *)
Theorem readme_sections_follow_the_basket (stocks : list string) (w : world)
    (s : state) :
  (exists sections,
      readme (exec (data_fetch.update_readme stocks) w s)
      = Some (Title :: Last_updated (clock w) :: sections) /\
      omap section_of sections = List.filter (has_rows (db s)) stocks /\
      forall c, c ∈ sections ->
        exists x t, db s !! x = Some t /\
                    c = Markdown_section x (Sqlite.select_recent 2 t) /\
                    (1 <= length (Sqlite.select_recent 2 t) <= 2)%nat /\
                    StronglySorted newest_first (Sqlite.select_recent 2 t))
  /\
  (exists sections,
      readme (exec (data_fetch_v1.update_readme stocks) w s)
      = Some (Title :: Last_updated (clock w) :: sections) /\
      omap section_of sections = List.filter (has_rows (db s)) stocks /\
      forall c, c ∈ sections ->
        exists x t, db s !! x = Some t /\
                    c = Html_section x
                          (map (fun r => (datetime r, close r, volume r))
                               (Sqlite.select_recent 2 t)) /\
                    (1 <= length (Sqlite.select_recent 2 t) <= 2)%nat).
Proof.
  unfold exec. rewrite update_readme_spec, update_readme_v1_spec.
  cbn [snd readme snapshot app].
  assert (forall t, Sqlite.select_recent 2 t <> [] ->
                    (1 <= length (Sqlite.select_recent 2 t) <= 2)%nat) as Hlen.
  { intros t Hne. pose proof (select_recent_length 2 t) as Hmin.
    pose proof (Nat.le_min_l 2 (length t)) as Hle.
    destruct (Sqlite.select_recent 2 t); [done|]. cbn [length] in *. lia. }
  assert (forall t, StronglySorted newest_first (Sqlite.select_recent 2 t)) as Hsorted.
  { intros t. apply select_recent_sorted. }
  split.
  - eexists. split; [reflexivity|]. split; [by apply sections_in_order|].
    intros c Hc. apply list_elem_of_In, in_flat_map in Hc as (x & _ & Hc).
    apply list_elem_of_In, section_chunks_rows in Hc as (t & Ht & -> & Hne).
    exists x, t. eauto.
  - eexists. split; [reflexivity|]. split; [by apply sections_in_order|].
    intros c Hc. apply list_elem_of_In, in_flat_map in Hc as (x & _ & Hc).
    apply list_elem_of_In, section_chunks_rows in Hc as (t & Ht & -> & Hne).
    exists x, t. eauto.
Qed.

(* ================================================================== *)
(** * More on [main]: what a cycle stores *)
(* ================================================================== *)

(** The state in which the loop of [main] ends, raised or not. *)
Lemma loop_state stocks w s :
  exec (for_each stocks data_fetch.process) w s = add_log s (loop_log w stocks).
Proof.
  unfold exec. revert s.
  induction stocks as [|x stocks IH]; intros s; cbn [for_each loop_log].
  - by rewrite add_log_nil.
  - destruct (fetched w x).1 as [df|] eqn:Hf.
    + destruct (process_frame_raises x w s df Hf) as [e He].
      by rewrite (bind_raises _ _ _ _ _ _ He), add_log_nil.
    + rewrite (bind_returns _ _ _ _ _ _ (process_no_frame x w s Hf)), IH.
      rewrite add_log_add_log. by rewrite <- app_assoc.
Qed.

Lemma main_db stocks w s :
  db (exec (data_fetch.main stocks) w s) = created stocks (db s).
Proof.
  pose proof (loop_state stocks w
                (set_db (created stocks (db s))
                   (add_log s [(INFO, Starting_data_fetch_cycle)]))) as Hstate.
  unfold exec in *.
  destruct (for_each stocks data_fetch.process w _) as [r s2] eqn:Hrun.
  rewrite (main_spec stocks w s r s2 Hrun). cbn [snd] in Hstate. subst s2.
  by destruct r.
Qed.

(** X10. A cycle of [data_fetch.py] stores no row, whatever the
    provider returns and however the cycle ends: a table that existed
    holds the rows it held, a table the cycle made is empty, and a
    second cycle, at any later moment, changes no table. *)
Theorem cycle_stores_no_row (stocks : list string) (w : world) (s : state) :
  (forall x t, db s !! x = Some t ->
               db (exec (data_fetch.main stocks) w s) !! x = Some t) /\
  (forall x t, db (exec (data_fetch.main stocks) w s) !! x = Some t ->
               t = default [] (db s !! x)) /\
  (forall w', db (exec (data_fetch.main stocks) w' (exec (data_fetch.main stocks) w s))
              = db (exec (data_fetch.main stocks) w s)).
Proof.
  split; [|split].
  - intros x t Ht. rewrite main_db, created_lookup, Ht. by case_decide.
  - intros x t. rewrite main_db, created_lookup.
    case_decide; [by intros [= <-] | by intros ->].
  - intros w'. rewrite !main_db. apply created_idempotent.
Qed.

(* ================================================================== *)
(** * Nothing stored is ever lost *)
(* ================================================================== *)

Section append_only.

Variable stock : string.
Variable t : list row.

(** The table of [stock] begins with the rows [t]. *)
Definition still_has (s : state) : Prop :=
  exists added, db s !! stock = Some (t ++ added).

Lemma still_has_on_db : on_db still_has.
Proof. intros s s' Hdb (added & Ht). exists added. by rewrite <- Hdb. Qed.

Lemma still_has_create_table x : preserves still_has (create_table_if_not_exists x).
Proof.
  intros w s (added & Ht). unfold create_table_if_not_exists.
  destruct (db s !! x) eqn:Hx; [by exists added|].
  exists added. cbn [snd db set_db].
  rewrite lookup_insert_ne; [done|]. intros ->. congruence.
Qed.

Lemma still_has_executemany x rows :
  preserves still_has (executemany_insert_or_ignore x rows).
Proof.
  intros w s (added & Ht). unfold executemany_insert_or_ignore.
  destruct (insert_error w x); [by exists added|].
  destruct (db s !! x) as [tx|] eqn:Hx; [|by exists added].
  destruct (bind_all rows) as [e|bound]; [by exists added|].
  rename bound into rows'.
  destruct (decide (x = stock)) as [->|Hne].
  - assert (tx = t ++ added) as -> by congruence.
    destruct (executemany_extends rows' (t ++ added)) as (more & Hmore & _).
    exists (added ++ more). cbn [snd db set_db].
    by rewrite lookup_insert_eq, Hmore, app_assoc.
  - exists added. cbn [snd db set_db]. by rewrite lookup_insert_ne.
Qed.

Lemma still_has_main stocks : preserves still_has (data_fetch.main stocks).
Proof.
  pose proof still_has_on_db. pose proof still_has_create_table.
  pose proof still_has_executemany.
  unfold data_fetch.main, data_fetch.init_db, data_fetch.process,
    data_fetch.update_readme, data_fetch.readme_section,
    data_fetch.fetch_stock_data, data_fetch.insert_data.
  keeps.
Qed.

Lemma still_has_main_v1 names stocks :
  preserves still_has (data_fetch_v1.main names stocks).
Proof.
  pose proof still_has_on_db. pose proof still_has_create_table.
  pose proof still_has_executemany.
  unfold data_fetch_v1.main, data_fetch_v1.init_db, data_fetch_v1.process,
    data_fetch_v1.update_readme, data_fetch_v1.readme_section,
    data_fetch_v1.fetch_stock_data, data_fetch_v1.insert_data,
    data_fetch_v1.minus_timedelta_minutes, data_fetch_v1.global.
  keeps.
Qed.

Lemma still_has_run_op stocks o : preserves still_has (run_op stocks o).
Proof.
  pose proof still_has_on_db. pose proof still_has_create_table.
  pose proof still_has_executemany.
  destruct o; cbn [run_op]; [| | |apply still_has_main];
    unfold data_fetch.init_db, data_fetch.update_readme, data_fetch.readme_section,
      data_fetch.insert_data; keeps.
Qed.

End append_only.

(** X12. No operation removes or changes a stored row: whatever rows a
    table holds, after every sequence of [init_db], [insert_data],
    [update_readme] and [main] of [data_fetch.py], and after [main] of
    [data_fetch_v1.py], the table still begins with those rows, in
    their order; operations that raise included. *)
Theorem stored_rows_are_never_lost (names stocks : list string)
    (ops : list (world * op)) (w : world) (s : state) (stock : string)
    (t : list row) :
  db s !! stock = Some t ->
  (exists added, db (run_ops stocks ops s) !! stock = Some (t ++ added)) /\
  (exists added,
      db (exec (data_fetch_v1.main names stocks) w s) !! stock = Some (t ++ added)).
Proof.
  intros Ht.
  assert (still_has stock t s) as Hs by (exists []; by rewrite app_nil_r).
  split.
  - unfold run_ops. clear Ht. revert s Hs.
    induction ops as [|[w' o] ops IH]; intros s Hs; [done|].
    cbn [fold_left fst snd]. apply IH. by apply still_has_run_op.
  - apply (still_has_main_v1 stock t names stocks w s Hs).
Qed.

Lemma stored_rows_are_never_lost_witness :
  exists added,
    db (run_ops three
          [(locked_b, Main); (provider_fails_b, Main); (quiet (at_time 10 7), Init_db)]
          (only_infy [to_record (bar_at 10 0 100.5 10)])) !! "INFY.NS"
    = Some ([to_record (bar_at 10 0 100.5 10)] ++ added).
Proof.
  apply (proj1 (stored_rows_are_never_lost [] three
                  [(locked_b, Main); (provider_fails_b, Main);
                   (quiet (at_time 10 7), Init_db)]
                  (quiet (at_time 10 7))
                  (only_infy [to_record (bar_at 10 0 100.5 10)]) "INFY.NS"
                  [to_record (bar_at 10 0 100.5 10)] eq_refl)).
Defined.

(* ================================================================== *)
(** * Keys and timestamps *)
(* ================================================================== *)

Lemma string_compare_refl s : String_as_OT.compare s s = Eq.
Proof.
  destruct (String_as_OT.compare_spec s s) as [_|Hlt|Hlt]; [done| |];
    by apply (StrictOrder_Irreflexive (R := String_as_OT.lt)) in Hlt.
Qed.

Lemma lex_compare_eq a b : lex_compare a b = Eq -> a = b.
Proof.
  revert b. induction a as [|x a IH]; intros [|y b]; cbn [lex_compare]; try done.
  destruct (Z.compare_spec x y) as [->|?|?]; try done.
  intros Hab. by rewrite (IH b Hab).
Qed.

(** X13. Two timestamps of the width of a minute bar have the same key
    text only when they are the same timestamp: [insert_data] never
    takes two different minutes for one. *)
Theorem distinct_timestamps_have_distinct_keys (a b : bar) :
  fits_format (Datetime a) -> fits_format (Datetime b) ->
  datetime (to_record a) = datetime (to_record b) ->
  Datetime a = Datetime b.
Proof.
  intros Ha Hb Hkey. cbn [datetime to_record] in Hkey.
  pose proof (str_datetime_compare _ _ Ha Hb) as Hcmp.
  rewrite Hkey, string_compare_refl in Hcmp. symmetry in Hcmp.
  apply lex_compare_eq in Hcmp. unfold fields in Hcmp.
  destruct (Datetime a), (Datetime b). cbn in Hcmp. congruence.
Qed.

Lemma distinct_timestamps_have_distinct_keys_witness :
  Datetime (bar_at 10 0 100.5 10) = Datetime (bar_at 10 0 999.0 1).
Proof.
  apply distinct_timestamps_have_distinct_keys; try reflexivity;
    unfold fits_format; cbn; lia.
Defined.

(* ================================================================== *)
(** * How [main] ends *)
(* ================================================================== *)

Lemma fetched_logs_no_info w x entry :
  entry ∈ (fetched w x).2 -> entry.1 <> INFO.
Proof.
  unfold fetched.
  destruct (download w x) as [e|df]; cbn [snd].
  { by intros ->%list_elem_of_singleton. }
  destruct (empty df); cbn [snd].
  { by intros ->%list_elem_of_singleton. }
  destruct (has_Datetime df); cbn [snd].
  - by intros ?%elem_of_nil.
  - by intros ->%list_elem_of_singleton.
Qed.

Lemma loop_log_no_info w stocks entry :
  entry ∈ loop_log w stocks -> entry.1 <> INFO.
Proof.
  induction stocks as [|x stocks IH]; cbn [loop_log].
  - by intros ?%elem_of_nil.
  - destruct (fetched w x).1; [by intros ?%elem_of_nil|].
    intros Hin. apply elem_of_app in Hin as [Hin|Hin].
    + by apply fetched_logs_no_info in Hin.
    + apply elem_of_cons in Hin as [->|Hin]; [done | by apply IH].
Qed.

(** The loop ends in the insert for the first symbol with a frame. *)
Lemma loop_frame_exn stocks w s x df :
  x ∈ stocks -> (fetched w x).1 = Some df ->
  (forall y, y ∈ stocks -> insert_error w y = None) ->
  (forall y, y ∈ stocks -> is_Some (db s !! y)) ->
  for_each stocks data_fetch.process w s
  = (inl timestamp_not_supported, add_log s (loop_log w stocks)).
Proof.
  revert s. induction stocks as [|y stocks IH]; intros s Hx Hf Hok Htables.
  - by apply elem_of_nil in Hx.
  - cbn [for_each loop_log].
    destruct (fetched w y).1 as [dfy|] eqn:Hy.
    + pose proof (process_frame y w s dfy Hy) as Hrun.
      rewrite (Hok y) in Hrun by (by left).
      destruct (Htables y) as [t Ht]; [by left|]. rewrite Ht in Hrun.
      by rewrite (bind_raises _ _ _ _ _ _ Hrun), add_log_nil.
    + apply elem_of_cons in Hx as [->|Hx]; [congruence|].
      rewrite (bind_returns _ _ _ _ _ _ (process_no_frame y w s Hy)).
      rewrite IH; try done.
      * rewrite add_log_add_log. by rewrite <- app_assoc.
      * intros z Hz. apply Hok. by right.
      * intros z Hz. cbn [db add_log]. apply Htables. by right.
Qed.

(** X14. When the provider returns, for a symbol of the basket, a
    frame that is not empty and has its columns, and the engine itself
    raises nothing, [main] of [data_fetch.py] ends in the
    [ProgrammingError] of the insert: the README is left as it was
    before the cycle, and after the start of the cycle the log has
    neither a count of inserted rows nor the completion of the cycle. *)
Theorem main_ends_in_the_insert (stocks : list string) (w : world) (s : state)
    (x : string) (fr : DataFrame) :
  x ∈ stocks ->
  download w x = inr fr -> has_Datetime fr = true -> records fr <> [] ->
  (forall y, y ∈ stocks -> insert_error w y = None) ->
  result (data_fetch.main stocks) w s = inl timestamp_not_supported /\
  readme (exec (data_fetch.main stocks) w s) = readme s /\
  exists entries,
    log (exec (data_fetch.main stocks) w s)
    = log s ++ (INFO, Starting_data_fetch_cycle) :: entries /\
    forall entry, entry ∈ entries -> entry.1 <> INFO.
Proof.
  intros Hx Hdl Hcols Hne Hok.
  assert ((fetched w x).1 = Some (records fr)) as Hf.
  { unfold fetched, empty. rewrite Hdl, Hcols. by destruct (records fr). }
  pose proof (loop_frame_exn stocks w
                (set_db (created stocks (db s))
                   (add_log s [(INFO, Starting_data_fetch_cycle)]))
                x (records fr) Hx Hf Hok) as Hloop.
  assert (forall y, y ∈ stocks ->
            is_Some (db (set_db (created stocks (db s))
                           (add_log s [(INFO, Starting_data_fetch_cycle)])) !! y))
    as Htables.
  { intros y Hy. cbn [db set_db]. rewrite created_lookup, decide_True by done.
    by eexists. }
  unfold result, exec. rewrite (main_spec stocks w s _ _ (Hloop Htables)).
  cbn [fst snd readme log add_log set_db].
  split; [done|]. split; [done|].
  exists (loop_log w stocks). split; [by rewrite <- app_assoc|].
  apply loop_log_no_info.
Qed.

(** A.NS has a bar: the cycle ends there. *)
Lemma main_ends_in_the_insert_witness :
  result (data_fetch.main three) provider_fails_b initial
  = inl (ProgrammingError "Error binding parameter 1: type 'Timestamp' is not supported")
  /\
  readme (exec (data_fetch.main three) provider_fails_b initial) = readme initial.
Proof.
  destruct (main_ends_in_the_insert three provider_fails_b initial "A.NS"
              (mk_frame true [bar_at 10 0 100.5 10])) as (H1 & H2 & _).
  - by left.
  - reflexivity.
  - reflexivity.
  - discriminate.
  - intros y _. reflexivity.
  - exact (conj H1 H2).
Defined.


